(** * Channel status aggregation and layered navigation (ui/views/channels*.ts)

    A shallow embedding of the view-model logic of the channels page:
    [channels.ts], [channels-tabs.ts], [channels-detail.ts] and the list-row
    classifier of [channels-list.ts], followed by the properties that the
    specification states about them. *)

From Stdlib Require Import ZArith Lia DecimalString.
From stdpp Require Import base option strings list gmap sorting.

Set Warnings "-register-all".

Local Open Scope string_scope.
Local Open Scope Z_scope.
Local Open Scope list_scope.

(** ** JavaScript values and the fragment of their semantics the views use *)
Module Js.

(** Untyped payloads ([unknown] in the TypeScript source). Numbers are the
    integers (millisecond timestamps, durations, counts); NaN and fractions are
    not represented. *)
Inductive jsval : Type :=
| JUndefined
| JNull
| JBool (b : bool)
| JNum (n : Z)
| JStr (s : string)
| JArr (xs : list jsval)
| JObj (fields : gmap string jsval).

(** Abrupt completion: the only exception the modelled code can raise is the
    [TypeError] of reading a property of [undefined] or [null]. *)
Inductive result (A : Type) : Type :=
| Ok (a : A)
| Throw (msg : string).
Global Arguments Ok {A} a.
Global Arguments Throw {A} msg.

Global Instance result_ret : MRet result := fun A a => Ok a.
Global Instance result_bind : MBind result := fun A B f m =>
  match m with
  | Ok a => f a
  | Throw e => Throw e
  end.

(** [typeof v]. *)
Definition typeof (v : jsval) : string :=
  match v with
  | JUndefined => "undefined"
  | JNull => "object"
  | JBool _ => "boolean"
  | JNum _ => "number"
  | JStr _ => "string"
  | JArr _ => "object"
  | JObj _ => "object"
  end.

(** ToBoolean: the falsy values are [undefined], [null], [false], [0], [""]. *)
Definition truthy (v : jsval) : bool :=
  match v with
  | JUndefined | JNull => false
  | JBool b => b
  | JNum n => negb (Z.eqb n 0)
  | JStr s => negb (String.eqb s "")
  | JArr _ | JObj _ => true
  end.

(** [v == null], i.e. [v] is [null] or [undefined]. *)
Definition nullish (v : jsval) : bool :=
  match v with
  | JUndefined | JNull => true
  | _ => false
  end.

(** [a ?? b]. *)
Definition nullishOr (a b : jsval) : jsval := if nullish a then b else a.

(** Own-property read on a value that is neither [null] nor [undefined]. *)
Definition ownField (v : jsval) (k : string) : jsval :=
  match v with
  | JObj fields => default JUndefined (fields !! k)
  | JStr s => if String.eqb k "length" then JNum (Z.of_nat (String.length s)) else JUndefined
  | JArr xs => if String.eqb k "length" then JNum (Z.of_nat (length xs)) else JUndefined
  | _ => JUndefined
  end.

(** [v.k]: throws on [null] and [undefined]. *)
Definition getField (v : jsval) (k : string) : result jsval :=
  if nullish v
  then Throw "TypeError: cannot read properties of undefined or null"
  else Ok (ownField v k).

(** [v?.k]: short-circuits to [undefined] on [null] and [undefined]. *)
Definition optField (v : jsval) (k : string) : jsval :=
  if nullish v then JUndefined else ownField v k.

(** Narrowing of a value already tested with [typeof v === "boolean"]. *)
Definition asBoolean (v : jsval) : bool :=
  match v with JBool b => b | _ => false end.

(** Truthiness of a number-or-null field ([number | null] in the types). *)
Definition truthyNum (t : option Z) : bool :=
  match t with
  | Some n => negb (Z.eqb n 0)
  | None => false
  end.

End Js.
Export Js.

(** ** Data model (types.ts, channels.types.ts) *)

(** Modelled from the spec: the [ChannelAccountSnapshot] type of [types.ts]
    (that file is not among the sources); fields as the spec's AccountSnapshot
    lists them. *)
Module Account.
Record t : Type := mk {
  accountId : string;
  name : option string;
  configured : bool;
  running : bool;
  connected : option bool;        (* tri-state: [None] is null/unknown *)
  lastInboundAt : option Z;       (* epoch milliseconds, or null *)
  lastError : option string;
}.
End Account.

(** Modelled from the spec: the [ChannelUiMetaEntry] type of [types.ts]. *)
Module Meta.
Record t : Type := mk { id : string; label : string }.
End Meta.

(** Modelled from the spec: the [ChannelsStatusSnapshot] type of [types.ts].
    Every field is optional because the views read each of them through [?.]. *)
Module Snapshot.
Record t : Type := mk {
  channelOrder : option (list string);
  channelLabels : option (gmap string string);
  channelMeta : option (list Meta.t);
  channels : option (gmap string jsval);
  channelAccounts : option (gmap string (list Account.t));
}.
End Snapshot.

(** [ChannelListItem] of channels.types.ts. *)
Module Item.
Record t : Type := mk {
  id : string;
  label : string;
  configured : bool;
  running : bool;
  connected : bool;
  accountCount : Z;
  lastActivity : option Z;
  hasError : bool;
}.
End Item.

(** The fields of [ChannelsProps] that the modelled functions read; callbacks
    appear as the [Action] a control fires. *)
Record ChannelsProps : Type := {
  snapshot : option Snapshot.t;
  whatsappMessage : option string;
  whatsappQrDataUrl : option string;
  whatsappBusy : bool;
  configForm : jsval;
  expandedChannelId : option string;
  activeChannelTab : string;
}.

(** [ChannelsChannelData]. *)
Record ChannelsChannelData : Type := {
  whatsapp : jsval;
  telegram : jsval;
  discord : jsval;
  googlechat : jsval;
  slack : jsval;
  signal : jsval;
  imessage : jsval;
  nostr : jsval;
  dataChannelAccounts : option (gmap string (list Account.t));
}.

(** ** Rendered output: the part of the lit templates that carries decisions *)

Inductive Action : Type :=
| OnWhatsAppStart (force : bool)
| OnWhatsAppLogout
| OnRefresh (probe : bool)
| OnTabChange (tabId : string)
| OnCollapse
| NoAction.

(** A [<button>]; [disabled] is the boolean attribute bound with [?disabled=],
    false when the template binds none. *)
Record Button : Type := {
  btnClass : string;
  btnDisabled : bool;
  btnOnClick : Action;
  btnText : string;
}.

(** One card of the accounts tab. *)
Record AccountCard : Type := {
  cardTitle : string;
  cardId : string;
  cardRunning : string;
  cardConfigured : string;
  cardConnected : string;
  cardLastInbound : string;
  cardError : option string;
}.

Inductive Html : Type :=
| Nothing
| StatusList (rows : list (string * jsval))
| Callout (kind : string) (parts : list jsval)
| Placeholder (text : string)
| BtnRow (buttons : list Button)
| WhatsAppQr (src : string)
| AccountCardList (cards : list AccountCard)
| ConfigSection (body : jsval)
| Fragment (parts : list Html).

(** Functions imported from files outside the modelled sources. *)
Class Collaborators : Type := {
  formatAgo : jsval -> string;                     (* ../format.ts *)
  formatDuration : jsval -> string;                (* channels.shared.ts *)
  channelEnabled : string -> ChannelsProps -> bool;   (* channels.shared.ts *)
  getChannelAccountCount :
    string -> option (gmap string (list Account.t)) -> Z;   (* channels.shared.ts *)
  renderChannelConfigSection : string -> ChannelsProps -> Html;   (* channels.config.ts *)
}.

(** ** channels-tabs.ts *)
Module Tabs.

Record ChannelTabDef : Type := {
  id : string;
  label : string;
  disabled : option bool;
  hidden : option bool;
}.

Definition STATUS : string := "status".
Definition ACCOUNTS : string := "accounts".
Definition CONFIG : string := "config".
Definition ACTIONS : string := "actions".

(** One rendered tab button. *)
Record TabButton : Type := {
  tabId : string;
  tabLabel : string;
  tabClasses : string;
  tabSelected : bool;
  tabDisabled : bool;
  tabOnClick : Action;
}.

(** [parts.filter(Boolean).join(" ")]. *)
Definition joinClasses (parts : list string) : string :=
  String.concat " " (filter (fun s => s ≠ "") parts).

Definition renderChannelTabs (tabs : list ChannelTabDef) (activeTab : string)
  : list TabButton :=
  let visibleTabs := filter (fun tab => default false (hidden tab) = false) tabs in
  (fun tab =>
     let isActive := bool_decide (id tab = activeTab) in
     let isDisabled := bool_decide (disabled tab = Some true) in
     {| tabId := id tab;
        tabLabel := label tab;
        tabClasses := joinClasses
          [ "channel-tabs__tab";
            if isActive then "channel-tabs__tab--active" else "";
            if isDisabled then "channel-tabs__tab--disabled" else "" ];
        tabSelected := isActive;
        tabDisabled := isDisabled;
        tabOnClick := if isDisabled then NoAction else OnTabChange (id tab) |})
  <$> visibleTabs.

Definition createDefaultChannelTabs (hideAccounts hideActions : option bool)
  : list ChannelTabDef :=
  [ {| id := STATUS; label := "Status"; disabled := None; hidden := None |};
    {| id := ACCOUNTS; label := "Accounts"; disabled := None; hidden := hideAccounts |};
    {| id := CONFIG; label := "Config"; disabled := None; hidden := None |};
    {| id := ACTIONS; label := "Actions"; disabled := None; hidden := hideActions |} ].

End Tabs.

(** ** channels-detail.ts *)
Module Detail.

(** The expanded card: header title, collapse control, tab bar, content. *)
Record DetailView : Type := {
  title : string;
  closeOnClick : Action;
  tabBar : list Tabs.TabButton;
  content : Html;
}.

Definition renderDefaultStatus : Html := Placeholder "No status information available.".
Definition renderDefaultAccounts : Html := Placeholder "No accounts configured.".
Definition renderDefaultActions : Html := Placeholder "No actions available for this channel.".

Section WithCollaborators.
Context `{Collaborators}.

Definition renderTabContent (channelId activeTab : string) (channelsProps : ChannelsProps)
    (renderStatusContent renderAccountsContent renderActionsContent
       : option (unit -> result Html)) : result Html :=
  if String.eqb activeTab "status" then
    match renderStatusContent with
    | Some render => render tt
    | None => Ok renderDefaultStatus
    end
  else if String.eqb activeTab "accounts" then
    match renderAccountsContent with
    | Some render => render tt
    | None => Ok renderDefaultAccounts
    end
  else if String.eqb activeTab "config" then
    Ok (renderChannelConfigSection channelId channelsProps)
  else if String.eqb activeTab "actions" then
    match renderActionsContent with
    | Some render => render tt
    | None => Ok renderDefaultActions
    end
  else Ok Nothing.

(** [hideTabs] is the optional object [{accounts?, actions?}]. *)
Definition renderChannelDetail (channelId channelLabel activeTab : string)
    (channelsProps : ChannelsProps)
    (hideTabs : option (option bool * option bool))
    (renderStatusContent renderAccountsContent renderActionsContent
       : option (unit -> result Html)) : result DetailView :=
  let tabs := Tabs.createDefaultChannelTabs (hideTabs ≫= fst) (hideTabs ≫= snd) in
  body ← renderTabContent channelId activeTab channelsProps
            renderStatusContent renderAccountsContent renderActionsContent;
  mret {| title := channelLabel;
          closeOnClick := OnCollapse;
          tabBar := Tabs.renderChannelTabs tabs activeTab;
          content := body |}.

End WithCollaborators.
End Detail.

(** ** channels-list.ts: the compact list row *)
Module ChannelsList.

Definition getStatusClass (channel : Item.t) : string :=
  if Item.hasError channel then "error"
  else if Item.connected channel || Item.running channel then "ok"
  else if Item.configured channel then "configured"
  else "unconfigured".

(** The primary label of [getStatusSummary], before the account-count suffix. *)
Definition statusLabel (channel : Item.t) : string :=
  if Item.hasError channel then "Error"
  else if Item.connected channel then "Connected"
  else if Item.running channel then "Running"
  else if Item.configured channel then "Configured"
  else "Not configured".

(** The template interpolation of an integer count, in decimal digits (the
    form of every integer below 10^21 in magnitude). *)
Definition numberToString (n : Z) : string := NilZero.string_of_int (Z.to_int n).

Definition getStatusSummary (channel : Item.t) : string :=
  let parts := [statusLabel channel] in
  let parts :=
    if 1 <? Item.accountCount channel
    then parts ++ [(numberToString (Item.accountCount channel) ++ " accounts")%string]
    else if Item.accountCount channel =? 1
    then parts ++ ["1 account"]
    else parts in
  String.concat " · " parts.

(** What a key press or a click on a row asks for. *)
Inductive RowEffect : Type :=
| ClickChannel (channelId : string)
| CollapseChannel
| FocusRow (row : option nat)
| NoEffect.

(** [focusRow(index)]: the index is clamped with the length of [channels];
    [rows] is the number of row elements the page holds; the result is the
    row that receives the focus, if there is one. *)
Definition focusRow (channelsLength : Z) (rows : nat) (index : Z) : option nat :=
  let clampedIndex := Z.max 0 (Z.min index (channelsLength - 1)) in
  if clampedIndex <? Z.of_nat rows then Some (Z.to_nat clampedIndex) else None.

(** [handleKeyDown(e, channelId, index)]: whether [preventDefault] was
    called, and the effect. [onChannelCollapse] tells whether the optional
    callback was supplied. *)
Definition handleKeyDown (channelsLength : Z) (rows : nat) (onChannelCollapse : bool)
    (key channelId : string) (index : Z) : bool * RowEffect :=
  if String.eqb key "Enter" || String.eqb key " " then (true, ClickChannel channelId)
  else if String.eqb key "Escape"
  then (true, if onChannelCollapse then CollapseChannel else NoEffect)
  else if String.eqb key "ArrowDown"
  then (true, FocusRow (focusRow channelsLength rows (index + 1)))
  else if String.eqb key "ArrowUp"
  then (true, FocusRow (focusRow channelsLength rows (index - 1)))
  else if String.eqb key "Home"
  then (true, FocusRow (focusRow channelsLength rows 0))
  else if String.eqb key "End"
  then (true, FocusRow (focusRow channelsLength rows (channelsLength - 1)))
  else (false, NoEffect).

(** One row of the list, with the detail rendered below it when expanded. *)
Record Row (D : Type) : Type := {
  rowId : string;
  rowSelected : bool;
  rowLabel : string;
  rowStatusClass : string;
  rowSummary : string;
  rowActivity : string;
  rowChevron : string;
  rowOnClick : RowEffect;
  rowDetail : option D;
}.
Global Arguments rowId {D} _.
Global Arguments rowSelected {D} _.
Global Arguments rowLabel {D} _.
Global Arguments rowStatusClass {D} _.
Global Arguments rowSummary {D} _.
Global Arguments rowActivity {D} _.
Global Arguments rowChevron {D} _.
Global Arguments rowOnClick {D} _.
Global Arguments rowDetail {D} _.

Section WithCollaborators.
Context `{Collaborators}.

(** The [lastActivityText] of a row. *)
Definition lastActivityText (channel : Item.t) : string :=
  if truthyNum (Item.lastActivity channel)
  then formatAgo (match Item.lastActivity channel with
                  | Some t => JNum t
                  | None => JNull
                  end)
  else "n/a".

(** The body of the [channels.map] callback of [renderChannelsList]. *)
Definition renderRow {D} (expandedChannelId : option string)
    (renderDetailContent : option (string -> result D)) (channel : Item.t)
  : result (Row D) :=
  let isExpanded := bool_decide (expandedChannelId = Some (Item.id channel)) in
  let statusClass := getStatusClass channel in
  let statusSummary := getStatusSummary channel in
  detail ←
    (if isExpanded
     then match renderDetailContent with
          | Some render => d ← render (Item.id channel); mret (Some d)
          | None => mret None
          end
     else mret None);
  mret {| rowId := Item.id channel;
          rowSelected := isExpanded;
          rowLabel := Item.label channel;
          rowStatusClass := statusClass;
          rowSummary := statusSummary;
          rowActivity := lastActivityText channel;
          rowChevron := if isExpanded then "▾" else "▸";
          rowOnClick := ClickChannel (Item.id channel);
          rowDetail := detail |}.

Definition renderChannelsList {D} (channels : list Item.t)
    (expandedChannelId : option string)
    (renderDetailContent : option (string -> result D)) : result (list (Row D)) :=
  mapM (renderRow expandedChannelId renderDetailContent) channels.

End WithCollaborators.
End ChannelsList.

(** ** channels.ts *)
Module Channels.

Global Instance result_fmap : FMap result := fun A B f m =>
  match m with
  | Ok a => Ok (f a)
  | Throw e => Throw e
  end.

(** [record?.[key]] on an optional typed record, by own properties; [None]
    is [undefined]. This is the lookup for every key except the names of the
    members a plain object inherits ("constructor", "toString", ...); [Proto]
    below follows those. *)
Definition recordLookup {V} (record : option (gmap string V)) (key : string) : option V :=
  match record with
  | Some fields => fields !! key
  | None => None
  end.

(** [record?.[key]] on an optional [Record<string, unknown>]. *)
Definition recordGet (record : option (gmap string jsval)) (key : string) : jsval :=
  match record with
  | Some fields => default JUndefined (fields !! key)
  | None => JUndefined
  end.

(** [a > b] on numbers. *)
Definition numGt (a b : jsval) : bool :=
  match a, b with
  | JNum x, JNum y => y <? x
  | _, _ => false
  end.

(** [a > b] on two timestamps that are both present. *)
Definition optGt (a b : option Z) : bool :=
  match a, b with
  | Some x, Some y => y <? x
  | _, _ => false
  end.

(** A [number | null] field as a JavaScript value. *)
Definition numVal (t : option Z) : jsval :=
  match t with
  | Some n => JNum n
  | None => JNull
  end.

(** Truthiness of a [string | null] field. *)
Definition truthyStr (s : option string) : bool :=
  match s with
  | Some x => negb (String.eqb x "")
  | None => false
  end.

(** *** Canonical and display order *)

Definition resolveChannelOrder (snapshot : option Snapshot.t) : list string :=
  match snapshot ≫= Snapshot.channelMeta with
  | Some (entry :: entries) => Meta.id <$> (entry :: entries)
  | _ =>
    match snapshot ≫= Snapshot.channelOrder with
    | Some (key :: keys) => key :: keys
    | _ => ["whatsapp"; "telegram"; "discord"; "googlechat";
            "slack"; "signal"; "imessage"; "nostr"]
    end
  end.

(** [Array.prototype.toSorted(cmp)]: a stable sort; an element is placed
    before the first element of the already sorted suffix it does not
    exceed, so that equal elements keep their input order. *)
Fixpoint insertSorted {A} (cmp : A -> A -> Z) (x : A) (sorted : list A) : list A :=
  match sorted with
  | [] => [x]
  | y :: rest =>
    if cmp x y <=? 0 then x :: y :: rest else y :: insertSorted cmp x rest
  end.

Definition toSorted {A} (cmp : A -> A -> Z) (xs : list A) : list A :=
  foldr (insertSorted cmp) [] xs.

(** The objects [{key, enabled, order}] built in [renderChannels]. *)
Record OrderedChannel : Type := {
  key : string;
  enabled : bool;
  order : Z;
}.

(** The comparator passed to [toSorted] in [renderChannels]. *)
Definition compareChannels (a b : OrderedChannel) : Z :=
  if negb (eqb (enabled a) (enabled b))
  then (if enabled a then -1 else 1)
  else order a - order b.

Definition resolveChannelMetaMap (snapshot : option Snapshot.t) : gmap string Meta.t :=
  match snapshot ≫= Snapshot.channelMeta with
  | Some (entry :: entries) =>
    foldl (fun acc e => <[Meta.id e := e]> acc) ∅ (entry :: entries)
  | _ => ∅
  end.

(** The label, for a key that names no inherited member
    ([Proto.resolveChannelLabel] covers every key). *)
Definition resolveChannelLabel (snapshot : option Snapshot.t) (key : string) : string :=
  match resolveChannelMetaMap snapshot !! key with
  | Some meta => Meta.label meta
  | None =>
    match recordLookup (snapshot ≫= Snapshot.channelLabels) key with
    | Some label => label
    | None => key
    end
  end.

(** *** Activity classifier *)

Definition RECENT_ACTIVITY_THRESHOLD_MS : Z := 10 * 60 * 1000.

(** [now] is the value read from [Date.now()]. *)
Definition hasRecentActivity (now : Z) (account : Account.t) : bool :=
  if negb (truthyNum (Account.lastInboundAt account)) then false
  else now - default 0 (Account.lastInboundAt account) <? RECENT_ACTIVITY_THRESHOLD_MS.

Definition deriveRunningStatus (now : Z) (account : Account.t) : string :=
  if Account.running account then "Yes"
  else if hasRecentActivity now account then "Active"
  else "No".

Definition deriveConnectedStatus (now : Z) (account : Account.t) : string :=
  if bool_decide (Account.connected account = Some true) then "Yes"
  else if bool_decide (Account.connected account = Some false) then "No"
  else if hasRecentActivity now account then "Active"
  else "n/a".

Section WithCollaborators.
Context `{Collaborators}.

(** The [orderedChannels] of [renderChannels]. *)
Definition orderedChannels (props : ChannelsProps) : list OrderedChannel :=
  let channelOrder := resolveChannelOrder (snapshot props) in
  toSorted compareChannels
    (imap (fun index key =>
             {| key := key;
                enabled := channelEnabled key props;
                order := Z.of_nat index |})
          channelOrder).

(** *** Channel summarizer *)

(** One iteration of the [for (const account of accounts)] loop. *)
Definition lastActivityStep (lastActivity : option Z) (account : Account.t) : option Z :=
  if truthyNum (Account.lastInboundAt account) &&
     (bool_decide (lastActivity = None) ||
      optGt (Account.lastInboundAt account) lastActivity)
  then Account.lastInboundAt account
  else lastActivity.

Definition lastActivityOf (accounts : list Account.t) : option Z :=
  foldl lastActivityStep None accounts.

(** The body of the [orderedKeys.map] callback, for a key that names no
    inherited member ([Proto.buildChannelListItem] covers every key). *)
Definition buildChannelListItem (props : ChannelsProps) (key : string) : result Item.t :=
  let label := resolveChannelLabel (snapshot props) key in
  let status := recordGet (snapshot props ≫= Snapshot.channels) key in
  configured ←
    (if String.eqb (typeof (optField status "configured")) "boolean"
     then asBoolean <$> getField status "configured" else mret false);
  running ←
    (if String.eqb (typeof (optField status "running")) "boolean"
     then asBoolean <$> getField status "running" else mret false);
  connected ←
    (if String.eqb (typeof (optField status "connected")) "boolean"
     then asBoolean <$> getField status "connected" else mret false);
  hasError ←
    (if String.eqb (typeof (optField status "lastError")) "string"
     then lastError ← getField status "lastError";
          len ← getField lastError "length";
          mret (numGt len (JNum 0))
     else mret false);
  let accounts :=
    default [] (recordLookup (snapshot props ≫= Snapshot.channelAccounts) key) in
  let accountCount :=
    getChannelAccountCount key (snapshot props ≫= Snapshot.channelAccounts) in
  let lastActivity := lastActivityOf accounts in
  mret {| Item.id := key;
          Item.label := label;
          Item.configured := configured;
          Item.running := running;
          Item.connected := connected;
          Item.accountCount := accountCount;
          Item.lastActivity := lastActivity;
          Item.hasError := hasError |}.

Definition buildChannelListItems (props : ChannelsProps) (orderedKeys : list string)
  : result (list Item.t) :=
  mapM (buildChannelListItem props) orderedKeys.

(** The [listItems] of [renderChannels]. *)
Definition listItems (props : ChannelsProps) : result (list Item.t) :=
  buildChannelListItems props (key <$> orderedChannels props).

(** *** Status content *)

Definition yesNo (v : jsval) : jsval :=
  JStr (if truthy v then "Yes" else "No").

(** [v?.f ? formatAgo(v.f) : "n/a"]. *)
Definition agoOrNA (v : jsval) (f : string) : result jsval :=
  if truthy (optField v f)
  then (fun t => JStr (formatAgo t)) <$> getField v f
  else mret (JStr "n/a").

(** [v?.lastError ? <callout danger>v.lastError</callout> : nothing]. *)
Definition errorCallout (v : jsval) : result Html :=
  if truthy (optField v "lastError")
  then (fun e => Callout "danger" [e]) <$> getField v "lastError"
  else mret Nothing.

(** The probe-result callout of the Telegram and Discord status. *)
Definition probeCallout (v : jsval) : result Html :=
  if truthy (optField v "probe") then
    probe ← getField v "probe";
    ok ← getField probe "ok";
    status ← getField probe "status";
    error ← getField probe "error";
    mret (Callout (if truthy ok then "info" else "danger")
            [ JStr "Probe "; JStr (if truthy ok then "ok" else "failed"); JStr " · ";
              nullishOr status (JStr ""); JStr " "; nullishOr error (JStr "") ])
  else mret Nothing.

Definition renderWhatsAppStatus (whatsapp : jsval) : result Html :=
  lastConnect ← agoOrNA whatsapp "lastConnectedAt";
  lastMessage ← agoOrNA whatsapp "lastMessageAt";
  authAge ←
    (if negb (nullish (optField whatsapp "authAgeMs"))
     then (fun d => JStr (formatDuration d)) <$> getField whatsapp "authAgeMs"
     else mret (JStr "n/a"));
  err ← errorCallout whatsapp;
  mret (Fragment
    [ StatusList
        [ ("Configured", yesNo (optField whatsapp "configured"));
          ("Linked", yesNo (optField whatsapp "linked"));
          ("Running", yesNo (optField whatsapp "running"));
          ("Connected", yesNo (optField whatsapp "connected"));
          ("Last connect", lastConnect);
          ("Last message", lastMessage);
          ("Auth age", authAge) ];
      err ]).

Definition renderTelegramStatus (telegram : jsval) : result Html :=
  lastStart ← agoOrNA telegram "lastStartAt";
  lastProbe ← agoOrNA telegram "lastProbeAt";
  err ← errorCallout telegram;
  probe ← probeCallout telegram;
  mret (Fragment
    [ StatusList
        [ ("Configured", yesNo (optField telegram "configured"));
          ("Running", yesNo (optField telegram "running"));
          ("Mode", nullishOr (optField telegram "mode") (JStr "n/a"));
          ("Last start", lastStart);
          ("Last probe", lastProbe) ];
      err; probe ]).

Definition renderDiscordStatus (discord : jsval) : result Html :=
  lastStart ← agoOrNA discord "lastStartAt";
  lastProbe ← agoOrNA discord "lastProbeAt";
  err ← errorCallout discord;
  probe ← probeCallout discord;
  mret (Fragment
    [ StatusList
        [ ("Configured", yesNo (optField discord "configured"));
          ("Running", yesNo (optField discord "running"));
          ("Last start", lastStart);
          ("Last probe", lastProbe) ];
      err; probe ]).

(** Slack, Signal, iMessage, Google Chat and Nostr render the same two rows
    and the error callout; the source has one copy of this body per kind. *)
Definition renderTwoRowStatus (status : jsval) : result Html :=
  err ← errorCallout status;
  mret (Fragment
    [ StatusList
        [ ("Configured", yesNo (optField status "configured"));
          ("Running", yesNo (optField status "running")) ];
      err ]).

Definition renderSlackStatus := renderTwoRowStatus.
Definition renderSignalStatus := renderTwoRowStatus.
Definition renderIMessageStatus := renderTwoRowStatus.
Definition renderGoogleChatStatus := renderTwoRowStatus.
Definition renderNostrStatus := renderTwoRowStatus.

(** [x == null ? "n/a" : x ? "Yes" : "No"]. *)
Definition triState (x : jsval) : jsval :=
  JStr (if nullish x then "n/a" else if truthy x then "Yes" else "No").

Definition renderGenericStatus (channelId : string) (props : ChannelsProps)
    (data : ChannelsChannelData) : result Html :=
  let status := recordGet (snapshot props ≫= Snapshot.channels) channelId in
  configured ←
    (if String.eqb (typeof (optField status "configured")) "boolean"
     then getField status "configured" else mret JUndefined);
  running ←
    (if String.eqb (typeof (optField status "running")) "boolean"
     then getField status "running" else mret JUndefined);
  connected ←
    (if String.eqb (typeof (optField status "connected")) "boolean"
     then getField status "connected" else mret JUndefined);
  lastError ←
    (if String.eqb (typeof (optField status "lastError")) "string"
     then getField status "lastError" else mret JUndefined);
  let accounts := default [] (recordLookup (dataChannelAccounts data) channelId) in
  let lastInbound := head accounts ≫= Account.lastInboundAt in
  mret (Fragment
    [ StatusList
        [ ("Configured", triState configured);
          ("Running", triState running);
          ("Connected", triState connected);
          ("Last message",
           JStr (if truthyNum lastInbound then formatAgo (numVal lastInbound) else "n/a")) ];
      if truthy lastError then Callout "danger" [lastError] else Nothing ]).

Definition renderChannelStatus (channelId : string) (props : ChannelsProps)
    (data : ChannelsChannelData) : result Html :=
  if String.eqb channelId "whatsapp" then renderWhatsAppStatus (whatsapp data)
  else if String.eqb channelId "telegram" then renderTelegramStatus (telegram data)
  else if String.eqb channelId "discord" then renderDiscordStatus (discord data)
  else if String.eqb channelId "slack" then renderSlackStatus (slack data)
  else if String.eqb channelId "signal" then renderSignalStatus (signal data)
  else if String.eqb channelId "imessage" then renderIMessageStatus (imessage data)
  else if String.eqb channelId "googlechat" then renderGoogleChatStatus (googlechat data)
  else if String.eqb channelId "nostr" then renderNostrStatus (nostr data)
  else renderGenericStatus channelId props data.

(** *** Accounts content *)

(** [now] stands for both clock readings of one card; [deriveRunningStatus]
    and [deriveConnectedStatus] read the clock one after the other. *)
Definition renderGenericAccount (now : Z) (account : Account.t) : AccountCard :=
  let runningStatus := deriveRunningStatus now account in
  let connectedStatus := deriveConnectedStatus now account in
  {| cardTitle :=
       if truthyStr (Account.name account)
       then default "" (Account.name account) else Account.accountId account;
     cardId := Account.accountId account;
     cardRunning := runningStatus;
     cardConfigured := if Account.configured account then "Yes" else "No";
     cardConnected := connectedStatus;
     cardLastInbound :=
       if truthyNum (Account.lastInboundAt account)
       then formatAgo (numVal (Account.lastInboundAt account)) else "n/a";
     cardError :=
       if truthyStr (Account.lastError account) then Account.lastError account else None |}.

(** The accounts of the channel are read by own property. *)
Definition renderChannelAccounts (now : Z) (channelId : string)
    (data : ChannelsChannelData) : Html :=
  let accounts := default [] (recordLookup (dataChannelAccounts data) channelId) in
  if bool_decide (length accounts = 0%nat)
  then Placeholder "No accounts configured."
  else AccountCardList (renderGenericAccount now <$> accounts).

(** *** Actions content *)

Definition renderWhatsAppActions (props : ChannelsProps) (whatsapp : jsval) : Html :=
  let showQr := bool_decide (whatsappQrDataUrl props ≠ None) in
  Fragment
    [ BtnRow
        ({| btnClass := "btn";
            btnDisabled := whatsappBusy props;
            btnOnClick := OnWhatsAppStart false;
            btnText := if showQr then "Refresh QR" else "Show QR Code" |}
         :: (if truthy (optField whatsapp "linked")
             then [ {| btnClass := "btn btn-danger";
                       btnDisabled := whatsappBusy props;
                       btnOnClick := OnWhatsAppLogout;
                       btnText := "Logout" |} ]
             else []));
      (if showQr then WhatsAppQr (default "" (whatsappQrDataUrl props)) else Nothing);
      (if truthyStr (whatsappMessage props)
       then Callout "info" [JStr (default "" (whatsappMessage props))] else Nothing) ].

Definition renderProbeActions (props : ChannelsProps) : Html :=
  BtnRow
    [ {| btnClass := "btn";
         btnDisabled := false;
         btnOnClick := OnRefresh true;
         btnText := "Probe Connection" |} ].

Definition renderChannelActions (channelId : string) (props : ChannelsProps)
    (data : ChannelsChannelData) : Html :=
  if String.eqb channelId "whatsapp" then renderWhatsAppActions props (whatsapp data)
  else if String.eqb channelId "telegram" || String.eqb channelId "discord" ||
          String.eqb channelId "slack" || String.eqb channelId "signal" ||
          String.eqb channelId "googlechat"
  then renderProbeActions props
  else Placeholder "No actions available for this channel.".

(** *** The expanded channel *)

Definition channelData (props : ChannelsProps) : ChannelsChannelData :=
  let channels := snapshot props ≫= Snapshot.channels in
  {| whatsapp := nullishOr (recordGet channels "whatsapp") JUndefined;
     telegram := nullishOr (recordGet channels "telegram") JUndefined;
     discord := nullishOr (recordGet channels "discord") JNull;
     googlechat := nullishOr (recordGet channels "googlechat") JNull;
     slack := nullishOr (recordGet channels "slack") JNull;
     signal := nullishOr (recordGet channels "signal") JNull;
     imessage := nullishOr (recordGet channels "imessage") JNull;
     nostr := nullishOr (recordGet channels "nostr") JNull;
     dataChannelAccounts := snapshot props ≫= Snapshot.channelAccounts |}.

(** The [hideTabs] object passed by [renderExpandedChannel]. *)
Definition hideTabsFor (accountCount : Z) : option (option bool * option bool) :=
  Some (Some (accountCount <? 2), None).

Definition renderExpandedChannel (now : Z) (channelId : string) (props : ChannelsProps)
  : result Detail.DetailView :=
  let data := channelData props in
  let label := resolveChannelLabel (snapshot props) channelId in
  let accountCount :=
    getChannelAccountCount channelId (snapshot props ≫= Snapshot.channelAccounts) in
  Detail.renderChannelDetail channelId label (activeChannelTab props) props
    (hideTabsFor accountCount)
    (Some (fun _ => renderChannelStatus channelId props data))
    (Some (fun _ => Ok (renderChannelAccounts now channelId data)))
    (Some (fun _ => Ok (renderChannelActions channelId props data))).

(** The channels-page section of [renderChannels]: the list with the expanded
    channel's detail inline. The health card below it prints the refresh time,
    the last error and the snapshot as they are. *)
Definition renderChannels (now : Z) (props : ChannelsProps)
  : result (list (ChannelsList.Row Detail.DetailView)) :=
  items ← listItems props;
  ChannelsList.renderChannelsList items (expandedChannelId props)
    (Some (fun channelId => renderExpandedChannel now channelId props)).

End WithCollaborators.
End Channels.

(** ** Channel keys that name members of [Object.prototype]

    The snapshot's records are plain objects, so [record[key]] also finds the
    members every object inherits. [Channels] reads records by their own
    properties, which is what the lookup does for every other key; this
    module follows the summarizer and the label resolver on all keys. *)
Module Proto.
Import Channels.

(** What a plain object inherits: the functions of [Object.prototype], with
    their [length], and the prototype object itself under [__proto__]. *)
Inductive Member : Type :=
| MemberFunction (length : Z)
| MemberPrototype.

Definition objectPrototypeMembers : list (string * Member) :=
  [ ("constructor", MemberFunction 1);
    ("hasOwnProperty", MemberFunction 1);
    ("isPrototypeOf", MemberFunction 1);
    ("propertyIsEnumerable", MemberFunction 1);
    ("toLocaleString", MemberFunction 0);
    ("toString", MemberFunction 0);
    ("valueOf", MemberFunction 0);
    ("__defineGetter__", MemberFunction 2);
    ("__defineSetter__", MemberFunction 2);
    ("__lookupGetter__", MemberFunction 1);
    ("__lookupSetter__", MemberFunction 1);
    ("__proto__", MemberPrototype) ].

Definition objectPrototypeMember (key : string) : option Member :=
  (list_to_map objectPrototypeMembers : gmap string Member) !! key.

(** The outcome of [record?.[key]]. *)
Inductive Found (V : Type) : Type :=
| Own (v : V)
| Inherited (m : Member)
| Missing.
Global Arguments Own {V} v.
Global Arguments Inherited {V} m.
Global Arguments Missing {V}.

(** [record?.[key]]: [Missing] is [undefined], for a nullish record or a key
    that is neither an own property nor inherited. *)
Definition keyed {V} (record : option (gmap string V)) (key : string) : Found V :=
  match record with
  | None => Missing
  | Some fields =>
    match fields !! key with
    | Some v => Own v
    | None =>
      match objectPrototypeMember key with
      | Some m => Inherited m
      | None => Missing
      end
    end
  end.

(** A label is a string unless the lookup in [channelLabels] found an
    inherited member. *)
Inductive Label : Type :=
| LabelText (text : string)
| LabelMember (m : Member).

(** [ChannelListItem], with the label as the code computes it. *)
Record ListItem : Type := {
  id : string;
  label : Label;
  configured : bool;
  running : bool;
  connected : bool;
  accountCount : Z;
  lastActivity : option Z;
  hasError : bool;
}.

(** The status record as the field reads see it: an inherited member has
    none of the fields the views read, like the empty object. *)
Definition statusOf (found : Found jsval) : jsval :=
  match found with
  | Own v => v
  | Inherited _ => JObj ∅
  | Missing => JUndefined
  end.

(** [resolveChannelMetaMap(snapshot)[key]]: the map is always an object. *)
Definition metaFor (snapshot : option Snapshot.t) (key : string) : Found Meta.t :=
  keyed (Some (resolveChannelMetaMap snapshot)) key.

(** [meta?.label ?? snapshot?.channelLabels?.[key] ?? key]: an inherited
    [meta] has no [label]. *)
Definition resolveChannelLabel (snapshot : option Snapshot.t) (key : string) : Label :=
  match metaFor snapshot key with
  | Own meta => LabelText (Meta.label meta)
  | _ =>
    match keyed (snapshot ≫= Snapshot.channelLabels) key with
    | Own text => LabelText text
    | Inherited m => LabelMember m
    | Missing => LabelText key
    end
  end.

(** An item of [Channels], whose label is a string. *)
Definition ofItem (item : Item.t) : ListItem :=
  {| id := Item.id item;
     label := LabelText (Item.label item);
     configured := Item.configured item;
     running := Item.running item;
     connected := Item.connected item;
     accountCount := Item.accountCount item;
     lastActivity := Item.lastActivity item;
     hasError := Item.hasError item |}.

Section WithCollaborators.
Context `{Collaborators}.

(** [for (const account of accounts)] with
    [accounts = snapshot?.channelAccounts?.[key] ?? []]: an inherited member
    is not nullish and not iterable. *)
Definition lastActivityFor (props : ChannelsProps) (key : string) : result (option Z) :=
  match keyed (snapshot props ≫= Snapshot.channelAccounts) key with
  | Own accounts => Ok (lastActivityOf accounts)
  | Missing => Ok (lastActivityOf [])
  | Inherited _ => Throw "TypeError: accounts is not iterable"
  end.

(** The body of the [orderedKeys.map] callback, on every key. *)
Definition buildChannelListItem (props : ChannelsProps) (key : string) : result ListItem :=
  let label := resolveChannelLabel (snapshot props) key in
  let status := statusOf (keyed (snapshot props ≫= Snapshot.channels) key) in
  configured ←
    (if String.eqb (typeof (optField status "configured")) "boolean"
     then asBoolean <$> getField status "configured" else mret false);
  running ←
    (if String.eqb (typeof (optField status "running")) "boolean"
     then asBoolean <$> getField status "running" else mret false);
  connected ←
    (if String.eqb (typeof (optField status "connected")) "boolean"
     then asBoolean <$> getField status "connected" else mret false);
  hasError ←
    (if String.eqb (typeof (optField status "lastError")) "string"
     then lastError ← getField status "lastError";
          len ← getField lastError "length";
          mret (numGt len (JNum 0))
     else mret false);
  let accountCount :=
    getChannelAccountCount key (snapshot props ≫= Snapshot.channelAccounts) in
  lastActivity ← lastActivityFor props key;
  mret {| id := key;
          label := label;
          configured := configured;
          running := running;
          connected := connected;
          accountCount := accountCount;
          lastActivity := lastActivity;
          hasError := hasError |}.

Definition buildChannelListItems (props : ChannelsProps) (orderedKeys : list string)
  : result (list ListItem) :=
  mapM (buildChannelListItem props) orderedKeys.

End WithCollaborators.
End Proto.

(** * Sample host *)

(** A host environment used to run the definitions on concrete inputs:
    a channel is enabled unless it is Slack or Signal, and the account count
    is the number of accounts listed for the channel. *)
Module Sample.

Definition host : Collaborators := {|
  formatAgo := fun _ => "just now";
  formatDuration := fun _ => "1m";
  channelEnabled := fun key _ =>
    negb (String.eqb key "slack" || String.eqb key "signal");
  getChannelAccountCount := fun key accounts =>
    Z.of_nat (length (default [] (Channels.recordLookup accounts key)));
  renderChannelConfigSection := fun channelId _ => ConfigSection (JStr channelId);
|}.

Definition account (id : string) (connected : option bool) (lastInboundAt : option Z)
  : Account.t :=
  Account.mk id None true false connected lastInboundAt None.

Definition snapshotOf (channels : list (string * jsval))
    (accounts : list (string * list Account.t)) : Snapshot.t :=
  Snapshot.mk None None None (Some (list_to_map channels)) (Some (list_to_map accounts)).

Definition propsOf (snapshot : option Snapshot.t) (busy : bool) (activeTab : string)
  : ChannelsProps :=
  {| snapshot := snapshot;
     whatsappMessage := None;
     whatsappQrDataUrl := None;
     whatsappBusy := busy;
     configForm := JNull;
     expandedChannelId := None;
     activeChannelTab := activeTab |}.

End Sample.

(** ** Concrete inputs *)
Module Inputs.
Import Channels.

(** An empty [channelMeta] falls through to [channelOrder]. *)
Definition orderOnlySnapshot : Snapshot.t :=
  Snapshot.mk (Some ["nostr"; "slack"]) None (Some []) None None.

Definition sampleNow : Z := 1700000000000.

Definition recentAccount : Account.t :=
  Sample.account "a" None (Some (sampleNow - 5 * 60 * 1000)).

Definition refusedAccount : Account.t :=
  Sample.account "a" (Some false) (Some sampleNow).


Definition matrixProps (status : jsval) : ChannelsProps :=
  Sample.propsOf (Some (Sample.snapshotOf [("matrix", status)] [])) false "status".

Definition busyProps : ChannelsProps := Sample.propsOf None true "actions".

(** A snapshot whose only channel is called "constructor", with empty
    [channels] and [channelAccounts] records. *)
Definition inheritedKeyProps : ChannelsProps :=
  Sample.propsOf
    (Some (Snapshot.mk (Some ["constructor"]) None None (Some ∅) (Some ∅)))
    false "status".

(** One Telegram account, and the navigation state points at the Accounts tab. *)
Definition singleAccountProps : ChannelsProps :=
  Sample.propsOf
    (Some (Sample.snapshotOf
             [("telegram", JObj {[ "configured" := JBool true ]})]
             [("telegram", [Sample.account "bot" None (Some 1699999900000)])]))
    false "accounts".

End Inputs.

(** ** Vocabulary of the properties *)
Module Terms.
Import Channels.

Definition DEFAULT_ORDER : list string :=
  ["whatsapp"; "telegram"; "discord"; "googlechat"; "slack"; "signal"; "imessage"; "nostr"].

(** "Present and non-empty", for an optional list of a snapshot. *)
Definition presentNonEmpty {A} (xs : option (list A)) : Prop :=
  ∃ x rest, xs = Some (x :: rest).

(** The entries are listed by strictly increasing [order]. *)
Definition ascending (l : list OrderedChannel) : Prop :=
  StronglySorted (λ a b, order a < order b) l.

(** The order the comparator induces: [a] sorts strictly before [b]. *)
Definition before (a b : OrderedChannel) : Prop := compareChannels a b < 0.

(** The timestamps the loop of [buildChannelListItems] takes into account:
    those that are non-null and non-zero. *)
Definition countedStamps (accounts : list Account.t) : list Z :=
  omap (λ a, if truthyNum (Account.lastInboundAt a) then Account.lastInboundAt a else None)
       accounts.

(** Loop invariant: after the accounts seen so far, [lastActivity] is null
    when no timestamp was counted and their maximum otherwise. *)
Definition isMaxOf (stamps : list Z) (lastActivity : option Z) : Prop :=
  match lastActivity with
  | None => stamps = []
  | Some m => m ∈ stamps ∧ ∀ t, t ∈ stamps → t ≤ m
  end.

(** The raw field [snapshot?.channels?.[key]?.[field]]: [undefined] for a null
    snapshot, an absent channel map, an absent channel or an absent field. *)
Definition statusField (props : ChannelsProps) (key field : string) : jsval :=
  optField (recordGet (snapshot props ≫= Snapshot.channels) key) field.

(** A boolean shown for a raw field: the field's value when it is a boolean,
    false when it is missing or of another type. *)
Definition degradesTo (raw : jsval) (shown : bool) : Prop :=
  (∀ b, raw = JBool b → shown = b) ∧
  (typeof raw ≠ "boolean" → shown = false).

Definition nonEmptyString (raw : jsval) : bool :=
  match raw with
  | JStr s => negb (String.eqb s "")
  | _ => false
  end.

(** The accounts the summarizer iterates over for a channel. *)
Definition accountsOf (props : ChannelsProps) (key : string) : list Account.t :=
  default [] (recordLookup (snapshot props ≫= Snapshot.channelAccounts) key).


(** Normal completion. *)
Definition isOk {A} (r : result A) : Prop := ∃ a, r = Ok a.

Definition tabIds (view : Detail.DetailView) : list string :=
  Tabs.tabId <$> Detail.tabBar view.

(** The buttons a rendered view offers. *)
Fixpoint buttonsOf (view : Html) : list Button :=
  match view with
  | BtnRow buttons => buttons
  | Fragment parts =>
    (fix collect (views : list Html) : list Button :=
       match views with
       | [] => []
       | part :: rest => buttonsOf part ++ collect rest
       end) parts
  | _ => []
  end.

Definition probeChannels : list string :=
  ["telegram"; "discord"; "slack"; "signal"; "googlechat"].

End Terms.

(** ** Vocabulary of the further properties *)
Module FactTerms.
Import Channels Terms Inputs ChannelsList.

Definition metaSnapshot : Snapshot.t :=
  Snapshot.mk (Some ["nostr"]) (Some {[ "matrix" := "from labels" ]})
    (Some [Meta.mk "matrix" "Matrix"; Meta.mk "slack" "Slack"; Meta.mk "matrix" "Matrix 2"])
    None None.

Definition handledKeys : list string :=
  ["Enter"; " "; "Escape"; "ArrowDown"; "ArrowUp"; "Home"; "End"].

(** The button rendered for one visible tab. *)
Definition buttonOf (activeTab : string) (tab : Tabs.ChannelTabDef)
    (button : Tabs.TabButton) : Prop :=
  Tabs.tabId button = Tabs.id tab ∧
  Tabs.tabLabel button = Tabs.label tab ∧
  Tabs.tabSelected button = bool_decide (Tabs.id tab = activeTab) ∧
  Tabs.tabDisabled button = bool_decide (Tabs.disabled tab = Some true) ∧
  Tabs.tabOnClick button =
    (if bool_decide (Tabs.disabled tab = Some true)
     then NoAction else OnTabChange (Tabs.id tab)).

Definition sampleTabs : list Tabs.ChannelTabDef :=
  [ {| Tabs.id := "status"; Tabs.label := "Status";
       Tabs.disabled := None; Tabs.hidden := None |};
    {| Tabs.id := "accounts"; Tabs.label := "Accounts";
       Tabs.disabled := None; Tabs.hidden := Some true |};
    {| Tabs.id := "config"; Tabs.label := "Config";
       Tabs.disabled := Some true; Tabs.hidden := Some false |} ].

(** The common shape of the per-kind status views: the status list, which
    starts with the Configured row and has a Running row, then the error
    callout, then at most the probe callout. *)
Definition kindStatusView (status : jsval) (view : Html) : Prop :=
  ∃ rows err rest,
    view = Fragment (StatusList rows :: err :: rest) ∧
    head (fst <$> rows) = Some "Configured" ∧
    "Running" ∈ fst <$> rows ∧
    errorCallout status = Ok err ∧
    (length rest ≤ 1)%nat.

(** The status payload handed to the renderer of a known kind, and the raw
    record of that channel, have the same fields. *)
Definition kindStatus (props : ChannelsProps) (channelId : string) : jsval :=
  nullishOr (recordGet (snapshot props ≫= Snapshot.channels) channelId)
    (if String.eqb channelId "whatsapp" || String.eqb channelId "telegram"
     then JUndefined else JNull).

Section WithCollaborators.
Context `{Collaborators}.


End WithCollaborators.
End FactTerms.

(** * Properties *)

(** ** Channel order resolver *)
Module OrderProps.
Import Channels Terms Inputs.

(** C6. [resolveChannelOrder] returns the ids of [channelMeta] in their listed
    order when [channelMeta] is present and non-empty; otherwise
    [channelOrder] verbatim when that is present and non-empty; otherwise the
    fixed default sequence, which is also the answer for a null snapshot. *)
Theorem resolveChannelOrder_priority (snapshot : option Snapshot.t) :
  (∀ metas, snapshot ≫= Snapshot.channelMeta = Some metas → metas ≠ [] →
     resolveChannelOrder snapshot = Meta.id <$> metas) ∧
  (∀ keys, ¬ presentNonEmpty (snapshot ≫= Snapshot.channelMeta) →
     snapshot ≫= Snapshot.channelOrder = Some keys → keys ≠ [] →
     resolveChannelOrder snapshot = keys) ∧
  (¬ presentNonEmpty (snapshot ≫= Snapshot.channelMeta) →
   ¬ presentNonEmpty (snapshot ≫= Snapshot.channelOrder) →
     resolveChannelOrder snapshot = DEFAULT_ORDER) ∧
  (snapshot = None → resolveChannelOrder snapshot = DEFAULT_ORDER).
Proof.
  unfold resolveChannelOrder, presentNonEmpty.
  repeat split.
  - intros metas -> Hne. by destruct metas.
  - intros keys Hmeta -> Hne.
    destruct (snapshot ≫= Snapshot.channelMeta) as [[|m ms]|]; [| |].
    + by destruct keys.
    + exfalso. apply Hmeta. by exists m, ms.
    + by destruct keys.
  - intros Hmeta Horder.
    destruct (snapshot ≫= Snapshot.channelMeta) as [[|m ms]|];
      destruct (snapshot ≫= Snapshot.channelOrder) as [[|k ks]|];
      try reflexivity;
      solve [ exfalso; apply Hmeta; by eexists _, _
            | exfalso; apply Horder; by eexists _, _ ].
  - by intros ->.
Qed.

Lemma resolveChannelOrder_witness :
  resolveChannelOrder (Some orderOnlySnapshot) = ["nostr"; "slack"].
Proof.
  apply (proj1 (proj2 (resolveChannelOrder_priority (Some orderOnlySnapshot)))).
  - intros (x & rest & Hmeta). simpl in Hmeta. discriminate.
  - reflexivity.
  - discriminate.
Defined.

Example resolveChannelOrder_examples :
  resolveChannelOrder None = DEFAULT_ORDER ∧
  resolveChannelOrder (Some (Snapshot.mk None None None None None)) = DEFAULT_ORDER ∧
  resolveChannelOrder
    (Some (Snapshot.mk (Some ["nostr"]) None
             (Some [Meta.mk "matrix" "Matrix"; Meta.mk "slack" "Slack"]) None None))
    = ["matrix"; "slack"].
Proof. by vm_compute. Qed.

End OrderProps.

(** ** The enabled/disabled re-sort of [renderChannels] *)
Module SortProps.
Import Channels Terms Inputs.

Section InsertionSort.
Context {A : Type} (cmp : A → A → Z).

Lemma insertSorted_Permutation (x : A) (l : list A) :
  insertSorted cmp x l ≡ₚ x :: l.
Proof.
  induction l as [|y l IH]; simpl; [done|].
  destruct (cmp x y <=? 0); [done|].
  rewrite IH. apply Permutation_swap.
Qed.

Lemma toSorted_Permutation (l : list A) : toSorted cmp l ≡ₚ l.
Proof.
  induction l as [|x l IH]; simpl; [done|].
  unfold toSorted in *. by rewrite insertSorted_Permutation, IH.
Qed.

Lemma toSorted_cons (x : A) (l : list A) :
  toSorted cmp (x :: l) = insertSorted cmp x (toSorted cmp l).
Proof. reflexivity. Qed.

(** An element that does not exceed the head of the sorted list goes first. *)
Lemma insertSorted_front (x : A) (l : list A) :
  Forall (λ y, cmp x y ≤ 0) l → insertSorted cmp x l = x :: l.
Proof.
  destruct 1 as [|y l Hy _]; simpl; [done|].
  by rewrite (proj2 (Z.leb_le _ _) Hy).
Qed.

(** An element passes every element it exceeds. *)
Lemma insertSorted_pass (x : A) (l1 l2 : list A) :
  Forall (λ y, 0 < cmp x y) l1 →
  insertSorted cmp x (l1 ++ l2) = l1 ++ insertSorted cmp x l2.
Proof.
  induction 1 as [|y l1 Hy _ IH]; simpl; [done|].
  rewrite (proj2 (Z.leb_gt _ _) Hy). by rewrite IH.
Qed.

Lemma StronglySorted_lookup_lt (R : relation A) (l : list A) (i j : nat) (a b : A) :
  StronglySorted R l → l !! i = Some a → l !! j = Some b → (i < j)%nat → R a b.
Proof.
  intros Hl. revert i j.
  induction Hl as [|x l Hl IH Hx]; intros i j Hi Hj Hij; [done|].
  destruct i as [|i], j as [|j]; simpl in *; try lia.
  - injection Hi as <-. rewrite Forall_forall in Hx.
    apply Hx. by eapply list_elem_of_lookup_2.
  - apply (IH i j); [done..|lia].
Qed.

End InsertionSort.

Lemma compareChannels_same (a b : OrderedChannel) :
  enabled a = enabled b → compareChannels a b = order a - order b.
Proof. unfold compareChannels. intros ->. by destruct (enabled b). Qed.

Lemma compareChannels_enabled_first (a b : OrderedChannel) :
  enabled a = true → enabled b = false → compareChannels a b = -1.
Proof. unfold compareChannels. by intros -> ->. Qed.

Lemma compareChannels_disabled_last (a b : OrderedChannel) :
  enabled a = false → enabled b = true → compareChannels a b = 1.
Proof. unfold compareChannels. by intros -> ->. Qed.

(** On an input listed by increasing index, the sort is the enabled entries
    followed by the disabled ones, each group in input order. *)
Lemma toSorted_partition (l : list OrderedChannel) :
  ascending l →
  toSorted compareChannels l =
    filter (λ c, enabled c = true) l ++ filter (λ c, enabled c = false) l.
Proof.
  induction 1 as [|x l Hl IH Hx]; [done|].
  rewrite toSorted_cons, IH. rewrite !filter_cons.
  rewrite Forall_forall in Hx.
  destruct (enabled x) eqn:Hen.
  - rewrite decide_True by done. rewrite decide_False by done.
    apply insertSorted_front, Forall_forall. intros y Hy.
    assert (y ∈ l) as Hyl.
    { apply elem_of_app in Hy as [Hy|Hy]; by apply list_elem_of_filter in Hy as [_ ?]. }
    specialize (Hx y Hyl).
    destruct (enabled y) eqn:Hey.
    + rewrite compareChannels_same by congruence. lia.
    + by rewrite compareChannels_enabled_first.
  - rewrite decide_False by done. rewrite decide_True by done.
    rewrite insertSorted_pass.
    + f_equal. apply insertSorted_front, Forall_forall. intros y Hy.
      apply list_elem_of_filter in Hy as [Hey Hyl].
      rewrite compareChannels_same by congruence.
      specialize (Hx y Hyl). lia.
    + apply Forall_forall. intros y Hy.
      apply list_elem_of_filter in Hy as [Hey _].
      by rewrite compareChannels_disabled_last.
Qed.

Lemma filter_group_sorted (b : bool) (l : list OrderedChannel) :
  ascending l → StronglySorted before (filter (λ c, enabled c = b) l).
Proof.
  induction 1 as [|x l Hl IH Hx]; [constructor|].
  rewrite filter_cons. case_decide as Hb; [|done].
  constructor; [done|].
  rewrite Forall_forall in *. intros y Hy.
  apply list_elem_of_filter in Hy as [Hey Hyl].
  unfold before. rewrite compareChannels_same by congruence.
  specialize (Hx y Hyl). lia.
Qed.

Lemma toSorted_sorted (l : list OrderedChannel) :
  ascending l → StronglySorted before (toSorted compareChannels l).
Proof.
  intros Hl. rewrite toSorted_partition by done.
  apply StronglySorted_app_2; [|by apply filter_group_sorted..].
  intros a b Ha Hb.
  apply list_elem_of_filter in Ha as [Ha _].
  apply list_elem_of_filter in Hb as [Hb _].
  unfold before. by rewrite compareChannels_enabled_first.
Qed.

Lemma imap_ascending {B} (f : nat → B → OrderedChannel) (l : list B) :
  (∀ i j x y, (i < j)%nat → order (f i x) < order (f j y)) →
  ascending (imap f l).
Proof.
  revert f. induction l as [|x l IH]; intros f Hf; [constructor|].
  rewrite imap_cons. constructor.
  - apply IH. intros i j a b Hij. apply Hf. lia.
  - apply Forall_forall. intros y Hy.
    apply list_elem_of_lookup in Hy as [i Hi].
    rewrite list_lookup_imap in Hi.
    destruct (l !! i) as [z|]; [|done].
    injection Hi as <-. apply Hf. lia.
Qed.

(** The result does not depend on the sorting algorithm: whatever arrangement
    of the entries is consistent with the comparator is the one [toSorted]
    returns. *)
Lemma ascending_order_inj (l : list OrderedChannel) (x y : OrderedChannel) :
  ascending l → x ∈ l → y ∈ l → order x = order y → x = y.
Proof.
  induction 1 as [|z l Hl IH Hz]; intros Hx Hy Hxy; [by apply elem_of_nil in Hx|].
  rewrite Forall_forall in Hz.
  apply elem_of_cons in Hx as [->|Hx]; apply elem_of_cons in Hy as [->|Hy].
  - done.
  - specialize (Hz y Hy). lia.
  - specialize (Hz x Hx). lia.
  - by apply IH.
Qed.

Lemma StronglySorted_weaken {A} (R1 R2 : relation A) (l : list A) :
  (∀ a b, R1 a b → R2 a b) → StronglySorted R1 l → StronglySorted R2 l.
Proof.
  intros HR. induction 1 as [|x l Hl IH Hx]; constructor; [done|].
  eapply Forall_impl; [exact Hx|]. intros y. apply HR.
Qed.

Lemma toSorted_unique (l l' : list OrderedChannel) :
  ascending l →
  l' ≡ₚ l →
  StronglySorted (λ a b, compareChannels a b ≤ 0) l' →
  l' = toSorted compareChannels l.
Proof.
  intros Hasc Hperm Hl'.
  apply (StronglySorted_unique_strong (λ a b, compareChannels a b ≤ 0)).
  - intros x1 x2 Hx1 Hx2 H12 H21.
    rewrite Hperm in Hx1. rewrite toSorted_Permutation in Hx2.
    apply (ascending_order_inj l); [done..|].
    destruct (enabled x1) eqn:H1, (enabled x2) eqn:H2.
    + rewrite compareChannels_same in H12, H21 by congruence. lia.
    + rewrite compareChannels_disabled_last in H21 by done. lia.
    + rewrite compareChannels_disabled_last in H12 by done. lia.
    + rewrite compareChannels_same in H12, H21 by congruence. lia.
  - done.
  - eapply StronglySorted_weaken; [|by apply toSorted_sorted].
    unfold before. intros; lia.
  - by rewrite toSorted_Permutation.
Qed.

Section WithCollaborators.
Context `{Collaborators}.

Lemma fmap_key_imap (props : ChannelsProps) (f : nat → string → OrderedChannel)
    (l : list string) :
  (∀ i k, key (f i k) = k) → key <$> imap f l = l.
Proof.
  intros Hf. rewrite fmap_imap.
  rewrite (imap_ext _ (const id)); [|intros; simpl; apply Hf].
  by rewrite imap_const, list_fmap_id.
Qed.

Lemma fmap_key_filter_imap (props : ChannelsProps) (b : bool)
    (f : nat → string → OrderedChannel) (l : list string) :
  (∀ i k, key (f i k) = k ∧ enabled (f i k) = channelEnabled k props) →
  key <$> filter (λ c, enabled c = b) (imap f l) =
    filter (λ k, channelEnabled k props = b) l.
Proof.
  revert f. induction l as [|k l IH]; intros f Hf; [done|].
  rewrite imap_cons, !filter_cons.
  destruct (Hf 0%nat k) as [Hk Hen]. rewrite Hen.
  case_decide; simpl; rewrite ?Hk, IH; try done; intros i k'; apply Hf.
Qed.

(** C5. The display order is a permutation of the canonical order of the same
    length; every entry carries its channel's enabled flag and canonical index;
    every enabled channel comes before every disabled one; and inside each of
    the two groups the channels come by increasing canonical index, so that
    the display order is the canonical order's enabled channels followed by
    its disabled ones. *)
Theorem orderedChannels_stable_resort (props : ChannelsProps) :
  let canonical := resolveChannelOrder (snapshot props) in
  let sorted := orderedChannels props in
  let display := key <$> sorted in
  display ≡ₚ canonical ∧
  length display = length canonical ∧
  (∀ c, c ∈ sorted →
     enabled c = channelEnabled (key c) props ∧
     0 ≤ order c ∧ canonical !! Z.to_nat (order c) = Some (key c)) ∧
  (∀ i j a b, sorted !! i = Some a → sorted !! j = Some b →
     enabled a = true → enabled b = false → (i < j)%nat) ∧
  (∀ i j a b, sorted !! i = Some a → sorted !! j = Some b →
     enabled a = enabled b → ((i < j)%nat ↔ order a < order b)) ∧
  display =
    filter (λ k, channelEnabled k props = true) canonical ++
    filter (λ k, channelEnabled k props = false) canonical.
Proof.
  intros canonical sorted display.
  set (f := λ (index : nat) (k : string),
              {| key := k; enabled := channelEnabled k props; order := Z.of_nat index |}).
  assert (sorted = toSorted compareChannels (imap f canonical)) as Hsorted by done.
  assert (ascending (imap f canonical)) as Hasc.
  { apply imap_ascending. intros i j x y Hij. simpl. lia. }
  assert (display ≡ₚ canonical) as Hperm.
  { unfold display. rewrite Hsorted, toSorted_Permutation.
    by rewrite (fmap_key_imap props). }
  assert (StronglySorted before sorted) as Hss.
  { rewrite Hsorted. by apply toSorted_sorted. }
  split_and!.
  - done.
  - by rewrite Hperm.
  - intros c Hc. rewrite Hsorted, toSorted_Permutation in Hc.
    apply list_elem_of_lookup in Hc as [i Hi].
    rewrite list_lookup_imap in Hi.
    destruct (canonical !! i) as [k|] eqn:Hk; [|done].
    injection Hi as <-. simpl. rewrite Nat2Z.id. split_and!; [done|lia|done].
  - intros i j a b Hi Hj Ha Hb.
    destruct (Nat.lt_trichotomy i j) as [Hlt|[->|Hgt]]; [done| |].
    + congruence.
    + pose proof (StronglySorted_lookup_lt before sorted j i b a Hss Hj Hi Hgt) as Hba.
      unfold before in Hba. rewrite compareChannels_disabled_last in Hba by done. lia.
  - intros i j a b Hi Hj Hab. split.
    + intros Hlt.
      pose proof (StronglySorted_lookup_lt before sorted i j a b Hss Hi Hj Hlt) as Hba.
      unfold before in Hba. rewrite compareChannels_same in Hba by done. lia.
    + intros Hord.
      destruct (Nat.lt_trichotomy i j) as [Hlt|[->|Hgt]]; [done| |].
      * assert (a = b) by congruence. subst. lia.
      * pose proof (StronglySorted_lookup_lt before sorted j i b a Hss Hj Hi Hgt) as Hba.
        unfold before in Hba. rewrite compareChannels_same in Hba by done. lia.
  - unfold display. rewrite Hsorted, toSorted_partition by done.
    rewrite fmap_app. by rewrite !(fmap_key_filter_imap props).
Qed.

End WithCollaborators.

(** The specification's example: [A(enabled), B(disabled), C(enabled)] is
    displayed as [A, C, B]. *)
Example toSorted_example :
  key <$> toSorted compareChannels
    [ {| key := "A"; enabled := true; order := 0 |};
      {| key := "B"; enabled := false; order := 1 |};
      {| key := "C"; enabled := true; order := 2 |} ] = ["A"; "C"; "B"].
Proof. reflexivity. Qed.

Example orderedChannels_default :
  key <$> orderedChannels (H := Sample.host) (Sample.propsOf None false "status") =
    ["whatsapp"; "telegram"; "discord"; "googlechat"; "imessage"; "nostr"; "slack"; "signal"].
Proof. reflexivity. Qed.

End SortProps.

(** ** Activity classifier *)
Module ActivityProps.
Import Channels Terms Inputs.

Lemma threshold_value : RECENT_ACTIVITY_THRESHOLD_MS = 600000.
Proof. reflexivity. Qed.

Lemma hasRecentActivity_null (now : Z) (account : Account.t) :
  Account.lastInboundAt account = None → hasRecentActivity now account = false.
Proof. unfold hasRecentActivity. by intros ->. Qed.

Lemma hasRecentActivity_stamp (now t : Z) (account : Account.t) :
  Account.lastInboundAt account = Some t →
  hasRecentActivity now account = negb (Z.eqb t 0) && (now - t <? 600000).
Proof.
  unfold hasRecentActivity. intros ->. simpl.
  by destruct (Z.eqb t 0).
Qed.

(** The guard is a truthiness test: [hasRecentActivity] is true exactly when
    [lastInboundAt] is a non-null, non-zero timestamp less than 600,000 ms
    before [now]. *)
Lemma hasRecentActivity_truthy_iff (now : Z) (account : Account.t) :
  hasRecentActivity now account = true ↔
    ∃ t, Account.lastInboundAt account = Some t ∧ t ≠ 0 ∧ now - t < 600000.
Proof.
  destruct (Account.lastInboundAt account) as [t|] eqn:Ht.
  - rewrite (hasRecentActivity_stamp now t) by done.
    rewrite andb_true_iff, negb_true_iff, Z.eqb_neq, Z.ltb_lt.
    split.
    + intros [? ?]. by exists t.
    + intros (t' & [= <-] & ? & ?). done.
  - rewrite hasRecentActivity_null by done.
    split; [done|]. by intros (t & ? & _).
Qed.

(** C4. At every clock reading [now] of at least the threshold, which is
    every reading [Date.now()] gives later than ten minutes after the epoch,
    [hasRecentActivity] is true if and only if [lastInboundAt] is non-null and
    [now - lastInboundAt] is strictly less than 600,000 ms; in particular it
    is false whenever [lastInboundAt] is null. *)
Theorem hasRecentActivity_iff (now : Z) (account : Account.t) :
  RECENT_ACTIVITY_THRESHOLD_MS ≤ now →
  (hasRecentActivity now account = true ↔
     ∃ t, Account.lastInboundAt account = Some t ∧ now - t < 600000) ∧
  (Account.lastInboundAt account = None → hasRecentActivity now account = false).
Proof.
  intros Hnow. rewrite threshold_value in Hnow.
  split; [|apply hasRecentActivity_null].
  rewrite hasRecentActivity_truthy_iff. split.
  - intros (t & Ht & _ & Hlt). by exists t.
  - intros (t & Ht & Hlt). exists t. split_and!; [done|lia|done].
Qed.

(** Below the threshold, a clock reading no running system gives, the
    timestamp 0 is the one input on which the guard shows: it counts as no
    timestamp. *)
Example hasRecentActivity_zero_stamp :
  let account := Sample.account "a" None (Some 0) in
  Account.lastInboundAt account = Some 0 ∧
  1000 - 0 < 600000 ∧
  hasRecentActivity 1000 account = false.
Proof. split_and!; [reflexivity|lia|reflexivity]. Qed.

(** The specification's examples, 5 and 15 minutes before [now]. *)
Example hasRecentActivity_examples :
  let now := 1700000000000 in
  hasRecentActivity now (Sample.account "a" None (Some (now - 5 * 60 * 1000))) = true ∧
  hasRecentActivity now (Sample.account "a" None (Some (now - 15 * 60 * 1000))) = false ∧
  hasRecentActivity now (Sample.account "a" None (Some (now - 600000))) = false ∧
  hasRecentActivity now (Sample.account "a" None None) = false.
Proof. by vm_compute. Qed.

(** C3. [deriveConnectedStatus] is [Yes] for an explicit true, [No] for an
    explicit false whatever the activity, and for an unknown connection
    [Active] with recent activity and [n/a] without. *)
Theorem deriveConnectedStatus_cases (now : Z) (account : Account.t) :
  (Account.connected account = Some true →
     deriveConnectedStatus now account = "Yes") ∧
  (Account.connected account = Some false →
     deriveConnectedStatus now account = "No") ∧
  (Account.connected account = None → hasRecentActivity now account = true →
     deriveConnectedStatus now account = "Active") ∧
  (Account.connected account = None → hasRecentActivity now account = false →
     deriveConnectedStatus now account = "n/a").
Proof.
  unfold deriveConnectedStatus.
  split_and!.
  - by intros ->.
  - by intros ->.
  - by intros -> ->.
  - by intros -> ->.
Qed.

Example deriveConnectedStatus_examples :
  let now := 1700000000000 in
  deriveConnectedStatus now (Sample.account "a" (Some false) (Some now)) = "No" ∧
  deriveConnectedStatus now (Sample.account "a" None (Some now)) = "Active" ∧
  deriveConnectedStatus now (Sample.account "a" None None) = "n/a" ∧
  deriveConnectedStatus now (Sample.account "a" (Some true) None) = "Yes".
Proof. by vm_compute. Qed.

Lemma hasRecentActivity_witness :
  RECENT_ACTIVITY_THRESHOLD_MS ≤ sampleNow ∧
  hasRecentActivity sampleNow recentAccount = true.
Proof.
  split; [by vm_compute|].
  apply (proj1 (hasRecentActivity_iff sampleNow recentAccount ltac:(by vm_compute))).
  exists (sampleNow - 5 * 60 * 1000). split; [reflexivity|by vm_compute].
Defined.

Lemma deriveConnectedStatus_witness :
  hasRecentActivity sampleNow refusedAccount = true ∧
  deriveConnectedStatus sampleNow refusedAccount = "No".
Proof.
  split; [by vm_compute|].
  apply (proj1 (proj2 (deriveConnectedStatus_cases sampleNow refusedAccount))).
  reflexivity.
Defined.

End ActivityProps.

(** ** Channel summarizer *)
Module SummarizerProps.
Import Channels Terms Inputs.


Lemma countedStamps_app (l1 l2 : list Account.t) :
  countedStamps (l1 ++ l2) = countedStamps l1 ++ countedStamps l2.
Proof. unfold countedStamps. apply omap_app. Qed.

Lemma lastActivityStep_invariant (seen : list Account.t) (lastActivity : option Z)
    (account : Account.t) :
  isMaxOf (countedStamps seen) lastActivity →
  isMaxOf (countedStamps (seen ++ [account])) (lastActivityStep lastActivity account).
Proof.
  intros Hinv. rewrite countedStamps_app.
  unfold lastActivityStep, countedStamps at 2. simpl.
  destruct (Account.lastInboundAt account) as [t|]; simpl.
  2: { by rewrite app_nil_r. }
  destruct (Z.eqb_spec t 0) as [->|Hne]; simpl.
  { by rewrite app_nil_r. }
  destruct lastActivity as [m|]; simpl in *.
  - destruct Hinv as [Hm Hmax].
    destruct (Z.ltb_spec m t) as [Hlt|Hge]; simpl.
    + split; [set_solver|]. intros u Hu.
      apply elem_of_app in Hu as [Hu|Hu].
      * specialize (Hmax u Hu). lia.
      * apply list_elem_of_singleton in Hu as ->. lia.
    + split; [set_solver|]. intros u Hu.
      apply elem_of_app in Hu as [Hu|Hu]; [by apply Hmax|].
      apply list_elem_of_singleton in Hu as ->. lia.
  - rewrite Hinv. simpl. split; [set_solver|].
    intros u Hu. apply list_elem_of_singleton in Hu as ->. lia.
Qed.

Lemma foldl_lastActivityStep_invariant (rest seen : list Account.t)
    (lastActivity : option Z) :
  isMaxOf (countedStamps seen) lastActivity →
  isMaxOf (countedStamps (seen ++ rest)) (foldl lastActivityStep lastActivity rest).
Proof.
  revert seen lastActivity.
  induction rest as [|a rest IH]; intros seen lastActivity Hinv; simpl.
  - by rewrite app_nil_r.
  - rewrite (assoc_L (++) seen [a] rest : seen ++ a :: rest = (seen ++ [a]) ++ rest).
    apply IH. by apply lastActivityStep_invariant.
Qed.

Lemma lastActivityOf_isMaxOf (accounts : list Account.t) :
  isMaxOf (countedStamps accounts) (lastActivityOf accounts).
Proof. apply (foldl_lastActivityStep_invariant accounts []). reflexivity. Qed.

(** *** Reading the raw status record *)

Lemma asBoolean_degradesTo (raw : jsval) : degradesTo raw (asBoolean raw).
Proof.
  split.
  - by intros b ->.
  - by destruct raw.
Qed.

Lemma nonEmptyString_true (raw : jsval) :
  nonEmptyString raw = true ↔ ∃ s, raw = JStr s ∧ s ≠ "".
Proof.
  split.
  - destruct raw as [| | | |s| |]; simpl; try done.
    rewrite negb_true_iff, String.eqb_neq. intros ?. by exists s.
  - intros (s & -> & Hs). simpl. by rewrite negb_true_iff, String.eqb_neq.
Qed.

(** [typeof status?.f === "boolean" ? status.f : false] never throws. *)
Lemma read_boolean_or_false (status : jsval) (f : string) :
  (if String.eqb (typeof (optField status f)) "boolean"
   then asBoolean <$> getField status f else mret false)
  = Ok (asBoolean (optField status f)).
Proof.
  unfold optField, getField.
  destruct (nullish status); [done|].
  by destruct (ownField status f).
Qed.

(** [typeof status?.f === "boolean" ? status.f : undefined] never throws. *)
Lemma read_boolean_or_undefined (status : jsval) (f : string) :
  (if String.eqb (typeof (optField status f)) "boolean"
   then getField status f else mret JUndefined)
  = Ok (match optField status f with JBool b => JBool b | _ => JUndefined end).
Proof.
  unfold optField, getField.
  destruct (nullish status); [done|].
  by destruct (ownField status f).
Qed.

(** [typeof status?.f === "string" ? status.f : undefined] never throws. *)
Lemma read_string_or_undefined (status : jsval) (f : string) :
  (if String.eqb (typeof (optField status f)) "string"
   then getField status f else mret JUndefined)
  = Ok (match optField status f with JStr s => JStr s | _ => JUndefined end).
Proof.
  unfold optField, getField.
  destruct (nullish status); [done|].
  by destruct (ownField status f).
Qed.

(** [typeof status?.lastError === "string" && status.lastError.length > 0]
    never throws. *)
Lemma read_hasError (status : jsval) :
  (if String.eqb (typeof (optField status "lastError")) "string"
   then lastError ← getField status "lastError";
        len ← getField lastError "length";
        mret (numGt len (JNum 0))
   else mret false)
  = Ok (nonEmptyString (optField status "lastError")).
Proof.
  unfold optField, getField.
  destruct (nullish status); [done|].
  destruct (ownField status "lastError") as [| | | |s| |]; try done.
  by destruct s.
Qed.

Section WithCollaborators.
Context `{Collaborators}.

(** The summarizer's callback returns normally, with this item. *)
Lemma buildChannelListItem_ok (props : ChannelsProps) (key : string) :
  buildChannelListItem props key =
    Ok {| Item.id := key;
          Item.label := resolveChannelLabel (snapshot props) key;
          Item.configured := asBoolean (statusField props key "configured");
          Item.running := asBoolean (statusField props key "running");
          Item.connected := asBoolean (statusField props key "connected");
          Item.accountCount :=
            getChannelAccountCount key (snapshot props ≫= Snapshot.channelAccounts);
          Item.lastActivity := lastActivityOf (accountsOf props key);
          Item.hasError := nonEmptyString (statusField props key "lastError") |}.
Proof.
  unfold buildChannelListItem.
  rewrite !read_boolean_or_false, read_hasError. reflexivity.
Qed.

Lemma mapM_result_ok {A B} (f : A → result B) (g : A → B) (l : list A) :
  (∀ x, f x = Ok (g x)) → mapM f l = Ok (g <$> l).
Proof.
  intros Hf. induction l as [|x l IH]; [done|].
  simpl. rewrite Hf. simpl. by rewrite IH.
Qed.

(** The list handed to the list view is always produced, one item per
    channel of the canonical order. *)
Lemma listItems_ok (props : ChannelsProps) :
  ∃ items, listItems props = Ok items ∧
    length items = length (resolveChannelOrder (snapshot props)).
Proof.
  eexists. split.
  { unfold listItems, buildChannelListItems.
    apply mapM_result_ok. intros k. apply buildChannelListItem_ok. }
  rewrite !length_fmap. unfold orderedChannels.
  rewrite (Permutation_length (SortProps.toSorted_Permutation _ _)).
  apply length_imap.
Qed.


(** On own-property reads the summarizer returns normally for every list of
    keys, with one item per key: each boolean is the raw field when that is a
    boolean and false otherwise, and [hasError] is true exactly when
    [lastError] is a non-empty string. [ProtoProps] carries this over to the
    keys that name no inherited member, and shows the others. *)
Lemma buildChannelListItems_total (props : ChannelsProps) (orderedKeys : list string) :
  ∃ items, buildChannelListItems props orderedKeys = Ok items ∧
    length items = length orderedKeys ∧
    ∀ i key, orderedKeys !! i = Some key →
      ∃ item, items !! i = Some item ∧
        Item.id item = key ∧
        degradesTo (statusField props key "configured") (Item.configured item) ∧
        degradesTo (statusField props key "running") (Item.running item) ∧
        degradesTo (statusField props key "connected") (Item.connected item) ∧
        (Item.hasError item = true ↔
           ∃ s, statusField props key "lastError" = JStr s ∧ s ≠ "") ∧
        (typeof (statusField props key "lastError") ≠ "string" →
           Item.hasError item = false).
Proof.
  eexists. split.
  { unfold buildChannelListItems.
    apply mapM_result_ok. intros key. apply buildChannelListItem_ok. }
  split; [by rewrite length_fmap|].
  intros i key Hi. eexists. split.
  { rewrite list_lookup_fmap, Hi. reflexivity. }
  simpl. split_and!; try done; try apply asBoolean_degradesTo.
  - apply nonEmptyString_true.
  - by destruct (statusField props key "lastError").
Qed.

End WithCollaborators.



Section GenericStatus.
Context `{Collaborators}.


End GenericStatus.

(** *** Concrete runs *)



(** In the compact row an absent [configured] reads "Not configured", as an
    explicit false does. *)
Example list_row_absent_configured :
  ChannelsList.statusLabel <$>
    buildChannelListItem (H := Sample.host) (matrixProps (JObj ∅)) "matrix"
  = Ok "Not configured" ∧
  ChannelsList.statusLabel <$>
    buildChannelListItem (H := Sample.host)
      (matrixProps (JObj {[ "configured" := JBool false ]})) "matrix"
  = Ok "Not configured".
Proof. by vm_compute. Qed.

(** A null snapshot, and a malformed record, are summarized without failure. *)
Example buildChannelListItems_null_snapshot :
  buildChannelListItems (H := Sample.host) (Sample.propsOf None false "status")
    ["telegram"]
  = Ok [ Item.mk "telegram" "telegram" false false false 0 None false ].
Proof. by vm_compute. Qed.

Example buildChannelListItems_malformed :
  buildChannelListItems (H := Sample.host)
    (matrixProps (JObj (list_to_map
       [ ("configured", JStr "yes"); ("running", JBool true);
         ("connected", JNull); ("lastError", JNum 7) ])))
    ["matrix"; "absent"]
  = Ok [ Item.mk "matrix" "matrix" false true false 0 None false;
         Item.mk "absent" "absent" false false false 0 None false ].
Proof. by vm_compute. Qed.

Example lastActivity_picks_max :
  lastActivityOf
    [ Sample.account "a" None (Some 5); Sample.account "b" None None;
      Sample.account "c" None (Some 9); Sample.account "d" None (Some 9);
      Sample.account "e" None (Some 0) ] = Some 9.
Proof. reflexivity. Qed.

End SummarizerProps.

(** ** Detail composer: tab bar, content dispatch and actions *)
Module DetailProps.
Import Channels Terms Inputs.

Lemma isOk_ret {A} (a : A) : isOk (mret a : result A).
Proof. by exists a. Qed.

Lemma isOk_Ok {A} (a : A) : isOk (Ok a).
Proof. by exists a. Qed.

Lemma isOk_bind {A B} (m : result A) (k : A → result B) :
  isOk m → (∀ a, isOk (k a)) → isOk (m ≫= k).
Proof. intros [a ->] Hk. apply Hk. Qed.

Lemma isOk_fmap {A B} (f : A → B) (m : result A) : isOk m → isOk (f <$> m).
Proof. intros [a ->]. by exists (f a). Qed.

Lemma truthy_not_nullish (v : jsval) : truthy v = true → nullish v = false.
Proof. by destruct v. Qed.

(** A read guarded by the truthiness of the same optional read cannot throw. *)
Lemma guarded_getField_ok (v : jsval) (f : string) :
  truthy (optField v f) = true → getField v f = Ok (optField v f).
Proof.
  unfold optField, getField. by destruct (nullish v).
Qed.

Lemma nonnullish_getField_ok (v : jsval) (f : string) :
  nullish (optField v f) = false → getField v f = Ok (optField v f).
Proof.
  unfold optField, getField. by destruct (nullish v).
Qed.

Create HintDb completes discriminated.
#[local] Hint Resolve isOk_ret isOk_Ok isOk_fmap : completes.

Section WithCollaborators.
Context `{Collaborators}.

Lemma agoOrNA_ok (v : jsval) (f : string) : isOk (agoOrNA v f).
Proof.
  unfold agoOrNA. destruct (truthy (optField v f)) eqn:Ht; [|auto with completes].
  rewrite guarded_getField_ok by done. auto with completes.
Qed.

Lemma errorCallout_ok (v : jsval) : isOk (errorCallout v).
Proof.
  unfold errorCallout. destruct (truthy (optField v "lastError")) eqn:Ht;
    [|auto with completes].
  rewrite guarded_getField_ok by done. auto with completes.
Qed.

Lemma probeCallout_ok (v : jsval) : isOk (probeCallout v).
Proof.
  unfold probeCallout. destruct (truthy (optField v "probe")) eqn:Ht;
    [|auto with completes].
  rewrite guarded_getField_ok by done. simpl.
  unfold getField. rewrite (truthy_not_nullish _ Ht). simpl.
  auto with completes.
Qed.

#[local] Hint Resolve agoOrNA_ok errorCallout_ok probeCallout_ok : completes.

Ltac step_ok := apply isOk_bind; [auto with completes|intros ?].

Lemma renderWhatsAppStatus_ok (whatsapp : jsval) : isOk (renderWhatsAppStatus whatsapp).
Proof.
  unfold renderWhatsAppStatus. do 2 step_ok.
  apply isOk_bind.
  { destruct (nullish (optField whatsapp "authAgeMs")) eqn:Hn; simpl;
      [auto with completes|].
    rewrite nonnullish_getField_ok by done. auto with completes. }
  intros ?. step_ok. auto with completes.
Qed.

Lemma renderTelegramStatus_ok (telegram : jsval) : isOk (renderTelegramStatus telegram).
Proof. unfold renderTelegramStatus. do 4 step_ok. auto with completes. Qed.

Lemma renderDiscordStatus_ok (discord : jsval) : isOk (renderDiscordStatus discord).
Proof. unfold renderDiscordStatus. do 4 step_ok. auto with completes. Qed.

Lemma renderTwoRowStatus_ok (status : jsval) : isOk (renderTwoRowStatus status).
Proof. unfold renderTwoRowStatus. step_ok. auto with completes. Qed.

Lemma renderGenericStatus_ok (channelId : string) (props : ChannelsProps)
    (data : ChannelsChannelData) :
  isOk (renderGenericStatus channelId props data).
Proof.
  unfold renderGenericStatus.
  rewrite !SummarizerProps.read_boolean_or_undefined,
    SummarizerProps.read_string_or_undefined.
  simpl. auto with completes.
Qed.

(** The status content never throws, whatever the snapshot holds. *)
Lemma renderChannelStatus_ok (channelId : string) (props : ChannelsProps)
    (data : ChannelsChannelData) :
  isOk (renderChannelStatus channelId props data).
Proof.
  unfold renderChannelStatus, renderSlackStatus, renderSignalStatus,
    renderIMessageStatus, renderGoogleChatStatus, renderNostrStatus.
  repeat case_match;
    auto using renderWhatsAppStatus_ok, renderTelegramStatus_ok, renderDiscordStatus_ok,
      renderTwoRowStatus_ok, renderGenericStatus_ok.
Qed.

(** *** Tab bar *)

(** The ids of the tab buttons for a channel with [accountCount] accounts. *)
Lemma tab_bar_ids (accountCount : Z) (activeTab : string) :
  Tabs.tabId <$>
    Tabs.renderChannelTabs
      (Tabs.createDefaultChannelTabs (hideTabsFor accountCount ≫= fst)
                                     (hideTabsFor accountCount ≫= snd))
      activeTab
  = if accountCount <? 2
    then ["status"; "config"; "actions"]
    else ["status"; "accounts"; "config"; "actions"].
Proof. unfold hideTabsFor. simpl. by destruct (accountCount <? 2). Qed.

(** The expanded card is always produced; its tab bar depends on the account
    count and its content on the active tab only. *)
Lemma renderExpandedChannel_ok (now : Z) (channelId : string) (props : ChannelsProps) :
  ∃ view, renderExpandedChannel now channelId props = Ok view ∧
    tabIds view =
      (if getChannelAccountCount channelId (snapshot props ≫= Snapshot.channelAccounts) <? 2
       then ["status"; "config"; "actions"]
       else ["status"; "accounts"; "config"; "actions"]) ∧
    Detail.renderTabContent channelId (activeChannelTab props) props
      (Some (λ _, renderChannelStatus channelId props (channelData props)))
      (Some (λ _, Ok (renderChannelAccounts now channelId (channelData props))))
      (Some (λ _, Ok (renderChannelActions channelId props (channelData props))))
    = Ok (Detail.content view).
Proof.
  unfold renderExpandedChannel, Detail.renderChannelDetail.
  set (body := Detail.renderTabContent _ _ _ _ _ _).
  assert (isOk body) as [html Hbody].
  { unfold body, Detail.renderTabContent.
    repeat case_match; auto using renderChannelStatus_ok with completes. }
  rewrite Hbody. eexists. split; [reflexivity|].
  split; [|reflexivity].
  unfold tabIds. simpl Detail.tabBar. apply tab_bar_ids.
Qed.

(** C7. The Accounts tab is in the tab bar of an expanded channel exactly when
    the channel has at least two accounts: with fewer the bar is Status,
    Config, Actions; otherwise Status, Accounts, Config, Actions. *)
Theorem accounts_tab_hidden_iff (now : Z) (channelId : string) (props : ChannelsProps) :
  let accountCount :=
    getChannelAccountCount channelId (snapshot props ≫= Snapshot.channelAccounts) in
  ∃ view, renderExpandedChannel now channelId props = Ok view ∧
    (Tabs.ACCOUNTS ∈ tabIds view ↔ ¬ accountCount < 2) ∧
    (accountCount < 2 → tabIds view = ["status"; "config"; "actions"]) ∧
    (2 ≤ accountCount → tabIds view = ["status"; "accounts"; "config"; "actions"]).
Proof.
  intros accountCount.
  destruct (renderExpandedChannel_ok now channelId props) as (view & Hview & Hids & _).
  exists view. split; [done|]. fold accountCount in Hids. rewrite Hids.
  destruct (Z.ltb_spec accountCount 2) as [Hlt|Hge].
  - split_and!; [|done|lia].
    split; [|lia]. intros Hin. exfalso.
    apply list_elem_of_In in Hin. simpl in Hin. by intuition discriminate.
  - split_and!; [|lia|done].
    split; [lia|]. intros _. apply list_elem_of_In. simpl. tauto.
Qed.

(** The content of the detail card is the dispatch on the active tab alone:
    the [hideTabs] option does not enter it. *)
Lemma renderChannelDetail_content (channelId channelLabel activeTab : string)
    (props : ChannelsProps) (hideTabs : option (option bool * option bool))
    (rs ra rx : option (unit → result Html)) :
  Detail.content <$>
    Detail.renderChannelDetail channelId channelLabel activeTab props hideTabs rs ra rx
  = Detail.renderTabContent channelId activeTab props rs ra rx.
Proof.
  unfold Detail.renderChannelDetail.
  by destruct (Detail.renderTabContent channelId activeTab props rs ra rx).
Qed.

(** C10. Hiding a tab does not gate the content: the content of the detail
    card is the dispatch on the active tab whatever [hideTabs] says; and when
    the active tab is the Accounts tab of a channel with fewer than two
    accounts, the tab bar has no Accounts button and the content area still
    shows the accounts content. *)
Theorem hidden_tab_content_rendered (now : Z) (channelId : string)
    (props : ChannelsProps) :
  (∀ channelLabel activeTab hideTabs rs ra rx,
     Detail.content <$>
       Detail.renderChannelDetail channelId channelLabel activeTab props hideTabs rs ra rx
     = Detail.renderTabContent channelId activeTab props rs ra rx) ∧
  (activeChannelTab props = "accounts" →
   getChannelAccountCount channelId (snapshot props ≫= Snapshot.channelAccounts) < 2 →
   ∃ view, renderExpandedChannel now channelId props = Ok view ∧
     (Tabs.ACCOUNTS ∉ tabIds view) ∧
     Detail.content view = renderChannelAccounts now channelId (channelData props)).
Proof.
  split; [intros; apply renderChannelDetail_content|].
  intros Htab Hcount.
  destruct (renderExpandedChannel_ok now channelId props) as (view & Hview & Hids & Hbody).
  exists view. split; [done|]. split.
  - rewrite Hids. rewrite (proj2 (Z.ltb_lt _ _) Hcount).
    intros Hin. apply list_elem_of_In in Hin. simpl in Hin. by intuition discriminate.
  - rewrite Htab in Hbody. simpl in Hbody. by injection Hbody as <-.
Qed.

(** *** Action buttons *)

Lemma whatsapp_buttons (props : ChannelsProps) (whatsapp : jsval) :
  buttonsOf (renderWhatsAppActions props whatsapp) =
    {| btnClass := "btn";
       btnDisabled := whatsappBusy props;
       btnOnClick := OnWhatsAppStart false;
       btnText := if bool_decide (whatsappQrDataUrl props ≠ None)
                  then "Refresh QR" else "Show QR Code" |}
    :: (if truthy (optField whatsapp "linked")
        then [ {| btnClass := "btn btn-danger";
                  btnDisabled := whatsappBusy props;
                  btnOnClick := OnWhatsAppLogout;
                  btnText := "Logout" |} ]
        else []).
Proof.
  unfold renderWhatsAppActions. simpl.
  destruct (bool_decide (whatsappQrDataUrl props ≠ None)),
    (truthyStr (whatsappMessage props)); simpl; by rewrite app_nil_r.
Qed.

(** C8, as the source has it. The WhatsApp actions offer the QR button, and
    the logout button when the account is linked, each disabled exactly when
    [whatsappBusy] is set; the probe channels offer the single probe button,
    which binds no disabled state and is enabled whatever the busy flag; every
    other channel offers no button. *)
Theorem action_buttons_disabled_state (channelId : string) (props : ChannelsProps)
    (data : ChannelsChannelData) :
  let buttons := buttonsOf (renderChannelActions channelId props data) in
  (channelId = "whatsapp" →
     (∃ qr, buttons !! 0%nat = Some qr ∧ btnOnClick qr = OnWhatsAppStart false) ∧
     ((∃ b, b ∈ buttons ∧ btnOnClick b = OnWhatsAppLogout) ↔
        truthy (optField (whatsapp data) "linked") = true) ∧
     (∀ b, b ∈ buttons → btnDisabled b = whatsappBusy props)) ∧
  (channelId ∈ probeChannels →
     ∃ b, buttons = [b] ∧ btnOnClick b = OnRefresh true ∧ btnDisabled b = false) ∧
  (channelId ≠ "whatsapp" → channelId ∉ probeChannels → buttons = []).
Proof.
  intros buttons. subst buttons. split_and!.
  - intros ->. unfold renderChannelActions. simpl String.eqb. cbv iota.
    rewrite whatsapp_buttons.
    destruct (truthy (optField (whatsapp data) "linked")); simpl; split_and!.
    + by eexists.
    + split; [done|]. intros _. eexists. split.
      * apply list_elem_of_In. simpl. right. left. reflexivity.
      * reflexivity.
    + intros b Hb. apply list_elem_of_In in Hb. simpl in Hb.
      destruct Hb as [<-|[<-|[]]]; reflexivity.
    + by eexists.
    + split; [|done]. intros (b & Hb & Hclick).
      apply list_elem_of_In in Hb. simpl in Hb.
      destruct Hb as [<-|[]]. discriminate.
    + intros b Hb. apply list_elem_of_In in Hb. simpl in Hb.
      destruct Hb as [<-|[]]; reflexivity.
  - intros Hin. apply list_elem_of_In in Hin. simpl in Hin.
    destruct Hin as [<-|[<-|[<-|[<-|[<-|[]]]]]]; by eexists.
  - intros Hw Hp. unfold renderChannelActions.
    destruct (String.eqb_spec channelId "whatsapp") as [|_]; [done|].
    destruct (String.eqb_spec channelId "telegram") as [->|_].
    { exfalso. apply Hp, list_elem_of_In. simpl. tauto. }
    destruct (String.eqb_spec channelId "discord") as [->|_].
    { exfalso. apply Hp, list_elem_of_In. simpl. tauto. }
    destruct (String.eqb_spec channelId "slack") as [->|_].
    { exfalso. apply Hp, list_elem_of_In. simpl. tauto. }
    destruct (String.eqb_spec channelId "signal") as [->|_].
    { exfalso. apply Hp, list_elem_of_In. simpl. tauto. }
    destruct (String.eqb_spec channelId "googlechat") as [->|_].
    { exfalso. apply Hp, list_elem_of_In. simpl. tauto. }
    reflexivity.
Qed.

End WithCollaborators.
(** *** Concrete runs *)

(** C8, as stated, fails for the probe button: with the busy flag set, the
    Telegram actions offer the probe button enabled. *)
Lemma probe_button_enabled_while_busy :
  whatsappBusy busyProps = true ∧
  buttonsOf (renderChannelActions "telegram" busyProps (channelData busyProps))
  = [ {| btnClass := "btn"; btnDisabled := false;
         btnOnClick := OnRefresh true; btnText := "Probe Connection" |} ].
Proof. by vm_compute. Qed.

Example whatsapp_buttons_disabled_while_busy :
  btnDisabled <$>
    buttonsOf (renderChannelActions "whatsapp" busyProps
                 (channelData
                    (Sample.propsOf
                       (Some (Sample.snapshotOf
                                [("whatsapp", JObj {[ "linked" := JBool true ]})] []))
                       true "actions")))
  = [true; true].
Proof. by vm_compute. Qed.

Lemma hidden_accounts_tab_witness :
  activeChannelTab singleAccountProps = "accounts" ∧
  getChannelAccountCount (Collaborators := Sample.host) "telegram"
    (snapshot singleAccountProps ≫= Snapshot.channelAccounts) < 2 ∧
  ∃ view,
    renderExpandedChannel (H := Sample.host) 1700000000000 "telegram" singleAccountProps
      = Ok view ∧
    (Tabs.ACCOUNTS ∉ tabIds view) ∧
    Detail.content view =
      renderChannelAccounts (H := Sample.host) 1700000000000 "telegram"
        (channelData singleAccountProps).
Proof.
  split; [reflexivity|]. split; [by vm_compute|].
  apply (proj2 (hidden_tab_content_rendered (H := Sample.host) _ _ _));
    [reflexivity|by vm_compute].
Defined.

Example single_account_card :
  Detail.content <$>
    renderExpandedChannel (H := Sample.host) 1700000000000 "telegram" singleAccountProps
  = Ok (AccountCardList
          [ {| cardTitle := "bot"; cardId := "bot"; cardRunning := "Active";
               cardConfigured := "Yes"; cardConnected := "Active";
               cardLastInbound := "just now"; cardError := None |} ]).
Proof. by vm_compute. Qed.

Example tab_bar_by_account_count :
  Tabs.tabId <$> Tabs.renderChannelTabs (Tabs.createDefaultChannelTabs (Some true) None) "status"
    = ["status"; "config"; "actions"] ∧
  Tabs.tabId <$> Tabs.renderChannelTabs (Tabs.createDefaultChannelTabs (Some false) None) "status"
    = ["status"; "accounts"; "config"; "actions"].
Proof. by vm_compute. Qed.

Lemma accounts_tab_witness :
  ∃ view,
    renderExpandedChannel (H := Sample.host) 1700000000000 "telegram" singleAccountProps
      = Ok view ∧
    tabIds view = ["status"; "config"; "actions"].
Proof.
  destruct (accounts_tab_hidden_iff (H := Sample.host) 1700000000000 "telegram"
              singleAccountProps) as (view & Hview & _ & Hfew & _).
  exists view. split; [exact Hview|]. apply Hfew. by vm_compute.
Defined.

Lemma probe_button_witness :
  ∃ b,
    buttonsOf (renderChannelActions "telegram" busyProps (channelData busyProps)) = [b] ∧
    btnOnClick b = OnRefresh true ∧ btnDisabled b = false.
Proof.
  apply (proj1 (proj2 (action_buttons_disabled_state "telegram" busyProps
                         (channelData busyProps)))).
  apply list_elem_of_here.
Defined.

End DetailProps.

(** * Further properties of the modelled code *)

(** ** Activity classifier: running state, expiry, agreement *)
Module ActivityFacts.
Import Channels Terms Inputs FactTerms.

(** X1. [deriveRunningStatus] answers "Yes" exactly for a running account,
    "Active" exactly for one that is not running but recently active, and
    "No" exactly for one that is neither; it never answers anything else. *)
Theorem deriveRunningStatus_iff (now : Z) (account : Account.t) :
  (deriveRunningStatus now account = "Yes" ↔ Account.running account = true) ∧
  (deriveRunningStatus now account = "Active" ↔
     Account.running account = false ∧ hasRecentActivity now account = true) ∧
  (deriveRunningStatus now account = "No" ↔
     Account.running account = false ∧ hasRecentActivity now account = false) ∧
  (deriveRunningStatus now account = "Yes" ∨
   deriveRunningStatus now account = "Active" ∨
   deriveRunningStatus now account = "No").
Proof.
  unfold deriveRunningStatus.
  destruct (Account.running account), (hasRecentActivity now account);
    split_and!; try split; try tauto; try discriminate; try (intros [? ?]; discriminate).
Qed.

(** X2. Recent activity expires and does not come back: what is recent at a
    later clock reading is recent at every earlier one, and what is no longer
    recent stays so as the clock advances. *)
Theorem hasRecentActivity_expires (now later : Z) (account : Account.t) :
  now ≤ later →
  (hasRecentActivity later account = true → hasRecentActivity now account = true) ∧
  (hasRecentActivity now account = false → hasRecentActivity later account = false).
Proof.
  intros Hle.
  assert (hasRecentActivity later account = true → hasRecentActivity now account = true)
    as Hmono.
  { destruct (Account.lastInboundAt account) as [t|] eqn:Ht.
    - rewrite !(ActivityProps.hasRecentActivity_stamp _ t) by done.
      rewrite !andb_true_iff, !Z.ltb_lt. intros [? ?]. split; [done|lia].
    - by rewrite !ActivityProps.hasRecentActivity_null. }
  split; [done|].
  intros Hnow. destruct (hasRecentActivity later account) eqn:Hlater; [|done].
  rewrite Hmono in Hnow; done.
Qed.

Lemma hasRecentActivity_expires_witness :
  sampleNow ≤ sampleNow + 1000 ∧
  hasRecentActivity (sampleNow + 1000) recentAccount = true ∧
  hasRecentActivity sampleNow recentAccount = true.
Proof.
  split; [by vm_compute|]. split; [by vm_compute|].
  apply (proj1 (hasRecentActivity_expires sampleNow (sampleNow + 1000) recentAccount
                  ltac:(by vm_compute))).
  by vm_compute.
Defined.

(** X3. The two states of one account card agree on inferred liveness: with
    the running state derived at a clock reading not after the one used for
    the connected state, a card that shows connected "Active" never shows
    running "No", and a card that shows running "No" shows connected "Yes",
    "No" or "n/a". *)
Theorem connected_active_not_running_no (now later : Z) (account : Account.t) :
  now ≤ later →
  (deriveConnectedStatus later account = "Active" →
     deriveRunningStatus now account = "Yes" ∨ deriveRunningStatus now account = "Active") ∧
  (deriveRunningStatus now account = "No" →
     deriveConnectedStatus later account = "Yes" ∨
     deriveConnectedStatus later account = "No" ∨
     deriveConnectedStatus later account = "n/a").
Proof.
  intros Hle.
  assert (hasRecentActivity later account = true → hasRecentActivity now account = true)
    as Hmono.
  { destruct (Account.lastInboundAt account) as [t|] eqn:Ht.
    - rewrite !(ActivityProps.hasRecentActivity_stamp _ t) by done.
      rewrite !andb_true_iff, !Z.ltb_lt. intros [? ?]. split; [done|lia].
    - by rewrite !ActivityProps.hasRecentActivity_null. }
  unfold deriveConnectedStatus, deriveRunningStatus.
  destruct (Account.connected account) as [[]|]; simpl;
    destruct (Account.running account);
    destruct (hasRecentActivity later account) eqn:Hl;
    destruct (hasRecentActivity now account) eqn:Hn;
    split; intros; try discriminate; try tauto.
  all: try (specialize (Hmono eq_refl); discriminate).
Qed.

Lemma connected_active_witness :
  sampleNow ≤ sampleNow + 1000 ∧
  deriveConnectedStatus (sampleNow + 1000) recentAccount = "Active" ∧
  (deriveRunningStatus sampleNow recentAccount = "Yes" ∨
   deriveRunningStatus sampleNow recentAccount = "Active").
Proof.
  split; [by vm_compute|]. split; [by vm_compute|].
  apply (proj1 (connected_active_not_running_no sampleNow (sampleNow + 1000)
                  recentAccount ltac:(by vm_compute))).
  by vm_compute.
Defined.

End ActivityFacts.

(** ** Summarizer: order of accounts, zero stamps, items in display order *)
Module SummarizerFacts.
Import Channels Terms Inputs FactTerms.

Lemma isMaxOf_unique (s1 s2 : list Z) (a b : option Z) :
  s1 ≡ₚ s2 → isMaxOf s1 a → isMaxOf s2 b → a = b.
Proof.
  intros Hperm Ha Hb.
  destruct a as [m|], b as [n|]; simpl in *.
  - destruct Ha as [Hm Hmax], Hb as [Hn Hnax].
    rewrite Hperm in Hm. rewrite <- Hperm in Hn.
    specialize (Hmax n Hn). specialize (Hnax m Hm). f_equal. lia.
  - subst s2. apply Permutation_nil_r in Hperm. subst s1.
    destruct Ha as [Hm _]. by apply elem_of_nil in Hm.
  - subst s1. apply Permutation_nil in Hperm. subst s2.
    destruct Hb as [Hn _]. by apply elem_of_nil in Hn.
  - done.
Qed.

(** X4. The last activity of a channel does not depend on the order in which
    its accounts are listed. *)
Theorem lastActivityOf_Permutation (accounts reordered : list Account.t) :
  accounts ≡ₚ reordered → lastActivityOf accounts = lastActivityOf reordered.
Proof.
  intros Hperm.
  apply (isMaxOf_unique (countedStamps accounts) (countedStamps reordered)).
  - unfold countedStamps. by rewrite Hperm.
  - apply SummarizerProps.lastActivityOf_isMaxOf.
  - apply SummarizerProps.lastActivityOf_isMaxOf.
Qed.

Lemma lastActivityOf_Permutation_witness :
  lastActivityOf [Sample.account "a" None (Some 5); Sample.account "b" None (Some 9)] =
  lastActivityOf [Sample.account "b" None (Some 9); Sample.account "a" None (Some 5)].
Proof.
  apply lastActivityOf_Permutation. apply Permutation_swap.
Defined.


Section WithCollaborators.
Context `{Collaborators}.



End WithCollaborators.
End SummarizerFacts.

(** ** Labels *)
Module LabelFacts.
Import Channels Terms Inputs FactTerms.

Lemma foldl_insert_lookup (metas : list Meta.t) (acc : gmap string Meta.t) (key : string) :
  foldl (λ acc e, <[Meta.id e := e]> acc) acc metas !! key =
    match last (filter (λ e, Meta.id e = key) metas) with
    | Some e => Some e
    | None => acc !! key
    end.
Proof.
  revert acc. induction metas as [|e metas IH]; intros acc; [done|].
  simpl foldl. rewrite IH, filter_cons.
  destruct (decide (Meta.id e = key)) as [Heq|Hne].
  - rewrite last_cons.
    destruct (last (filter (λ e, Meta.id e = key) metas)); [done|].
    rewrite <- Heq. apply lookup_insert_eq.
  - destruct (last (filter (λ e, Meta.id e = key) metas)); [done|].
    by apply lookup_insert_ne.
Qed.

(** The meta map holds, for a key, the last entry of [channelMeta] with that id. *)
Lemma resolveChannelMetaMap_lookup (snapshot : option Snapshot.t) (key : string) :
  resolveChannelMetaMap snapshot !! key =
    last (filter (λ e, Meta.id e = key) (default [] (snapshot ≫= Snapshot.channelMeta))).
Proof.
  unfold resolveChannelMetaMap.
  destruct (snapshot ≫= Snapshot.channelMeta) as [[|e metas]|]; simpl default.
  - done.
  - rewrite foldl_insert_lookup, lookup_empty.
    by destruct (last (filter (λ e0, Meta.id e0 = key) (e :: metas))).
  - done.
Qed.

(** X8. When the canonical order comes from [channelMeta], every channel of
    that order is labelled by an entry of [channelMeta] with its id: neither
    [channelLabels] nor the raw key is used. *)
Theorem meta_order_labelled_by_meta (snapshot : option Snapshot.t)
    (metas : list Meta.t) (key : string) :
  snapshot ≫= Snapshot.channelMeta = Some metas →
  metas ≠ [] →
  key ∈ resolveChannelOrder snapshot →
  ∃ e, e ∈ metas ∧ Meta.id e = key ∧ resolveChannelLabel snapshot key = Meta.label e.
Proof.
  intros Hmeta Hne Hkey.
  unfold resolveChannelLabel. rewrite resolveChannelMetaMap_lookup.
  unfold resolveChannelOrder in Hkey. rewrite Hmeta in *. simpl default.
  destruct metas as [|m metas]; [done|].
  apply list_elem_of_fmap in Hkey as (e0 & -> & He0).
  destruct (last (filter (λ e, Meta.id e = Meta.id e0) (m :: metas))) as [e|] eqn:Hlast.
  - apply last_Some_elem_of in Hlast.
    apply list_elem_of_filter in Hlast as [Hid Hin]. by exists e.
  - apply last_None in Hlast.
    exfalso. eapply (filter_nil_not_elem_of _ _ e0); [exact Hlast|reflexivity|done].
Qed.

Lemma meta_order_labelled_witness :
  ∃ e, e ∈ default [] (Snapshot.channelMeta metaSnapshot) ∧ Meta.id e = "matrix" ∧
    resolveChannelLabel (Some metaSnapshot) "matrix" = Meta.label e.
Proof.
  apply (meta_order_labelled_by_meta (Some metaSnapshot) _ "matrix").
  - reflexivity.
  - discriminate.
  - apply list_elem_of_here.
Defined.

Example resolveChannelLabel_examples :
  resolveChannelLabel (Some metaSnapshot) "matrix" = "Matrix 2" ∧
  resolveChannelLabel (Some metaSnapshot) "signal" = "signal" ∧
  resolveChannelLabel
    (Some (Snapshot.mk None (Some {[ "matrix" := "from labels" ]}) (Some []) None None))
    "matrix" = "from labels" ∧
  resolveChannelLabel None "matrix" = "matrix".
Proof. by vm_compute. Qed.

End LabelFacts.

(** ** The compact list: row classification and keyboard *)
Module ListFacts.
Import Channels Terms Inputs ChannelsList FactTerms.

Lemma getStatusSummary_shape (channel : Item.t) :
  ∃ rest, getStatusSummary channel = (statusLabel channel ++ rest)%string ∧
    (Item.accountCount channel ≤ 0 → rest = "") ∧
    (Item.accountCount channel = 1 → rest = " · 1 account") ∧
    (1 < Item.accountCount channel →
       rest = (" · " ++ numberToString (Item.accountCount channel) ++ " accounts")%string).
Proof.
  unfold getStatusSummary.
  destruct (Z.ltb_spec 1 (Item.accountCount channel)) as [Hlt|Hle].
  - eexists. split; [reflexivity|]. split_and!; [lia|lia|done].
  - destruct (Z.eqb_spec (Item.accountCount channel) 1) as [Heq|Hne].
    + eexists. split; [reflexivity|]. split_and!; [lia|done|lia].
    + exists "". split; [|split_and!; [done|lia|lia]].
      unfold statusLabel. simpl.
      by destruct (Item.hasError channel), (Item.connected channel),
        (Item.running channel), (Item.configured channel).
Qed.

(** X9. The summary and the status dot of a row agree: the summary starts
    with "Error" exactly when the dot is [error], with "Connected" or
    "Running" exactly when it is [ok], with "Configured" exactly when it is
    [configured] and with "Not configured" exactly when it is [unconfigured];
    an error outranks every other state. *)
Theorem summary_agrees_with_status_class (channel : Item.t) :
  let summary := getStatusSummary channel in
  (String.prefix "Error" summary = true ↔ getStatusClass channel = "error") ∧
  (String.prefix "Connected" summary = true ∨ String.prefix "Running" summary = true ↔
     getStatusClass channel = "ok") ∧
  (String.prefix "Configured" summary = true ↔ getStatusClass channel = "configured") ∧
  (String.prefix "Not configured" summary = true ↔
     getStatusClass channel = "unconfigured") ∧
  (getStatusClass channel = "error" ↔ Item.hasError channel = true).
Proof.
  intros summary. subst summary.
  destruct (getStatusSummary_shape channel) as (rest & -> & _).
  unfold statusLabel, getStatusClass.
  destruct (Item.hasError channel), (Item.connected channel),
    (Item.running channel), (Item.configured channel); simpl;
    split_and!; split; intros; try done; try discriminate; try tauto;
    try (destruct_or!; discriminate);
    destruct rest; solve [reflexivity | left; reflexivity | right; reflexivity].
Qed.

(** The account-count suffix of the summary: none for a count below 1,
    "1 account" for exactly one, "N accounts" above; it is appended to the
    state label whatever the state. *)
Lemma summary_account_suffix (channel : Item.t) :
  (Item.accountCount channel ≤ 0 →
     getStatusSummary channel = statusLabel channel) ∧
  (Item.accountCount channel = 1 →
     getStatusSummary channel = (statusLabel channel ++ " · 1 account")%string) ∧
  (1 < Item.accountCount channel →
     getStatusSummary channel =
       (statusLabel channel ++ " · " ++
        numberToString (Item.accountCount channel) ++ " accounts")%string).
Proof.
  destruct (getStatusSummary_shape channel) as (rest & -> & H0 & H1 & Hn).
  split_and!.
  - intros Hc. rewrite (H0 Hc). unfold statusLabel.
    by destruct (Item.hasError channel), (Item.connected channel),
      (Item.running channel), (Item.configured channel).
  - intros Hc. by rewrite (H1 Hc).
  - intros Hc. by rewrite (Hn Hc).
Qed.

Lemma focusRow_in_bounds (channelsLength : Z) (rows : nat) (index : Z) (row : nat) :
  focusRow channelsLength rows index = Some row →
  (row < rows)%nat ∧ Z.of_nat row ≤ Z.max 0 (channelsLength - 1).
Proof.
  unfold focusRow.
  destruct (Z.ltb_spec (Z.max 0 (Z.min index (channelsLength - 1))) (Z.of_nat rows));
    [|done].
  intros [= <-]. lia.
Qed.

Lemma focusRow_clamped (n : nat) (index : Z) :
  (0 < n)%nat →
  focusRow (Z.of_nat n) n index =
    Some (Z.to_nat (Z.max 0 (Z.min index (Z.of_nat n - 1)))).
Proof.
  intros Hn. unfold focusRow.
  destruct (Z.ltb_spec (Z.max 0 (Z.min index (Z.of_nat n - 1))) (Z.of_nat n)); [done|lia].
Qed.

(** X10. Keyboard focus moves without wraparound. In a list of [n] rows with
    the key pressed on row [i]: ArrowDown focuses row [i+1], or stays on the
    last row; ArrowUp focuses row [i-1], or stays on the first; Home focuses
    the first row and End the last; each of these keys suppresses the
    browser's default. The focused row always exists, and in an empty list no
    row is focused. *)
Theorem keyboard_focus_clamped (n : nat) (onChannelCollapse : bool) (channelId : string) :
  (∀ i, (i < n)%nat →
     let press key :=
       handleKeyDown (Z.of_nat n) n onChannelCollapse key channelId (Z.of_nat i) in
     press "ArrowDown" = (true, FocusRow (Some (Nat.min (i + 1) (n - 1)))) ∧
     press "ArrowUp" = (true, FocusRow (Some (i - 1)%nat)) ∧
     press "Home" = (true, FocusRow (Some 0%nat)) ∧
     press "End" = (true, FocusRow (Some (n - 1)%nat))) ∧
  (∀ key index row,
     snd (handleKeyDown (Z.of_nat n) n onChannelCollapse key channelId index)
       = FocusRow (Some row) → (row < n)%nat) ∧
  (∀ key index row,
     snd (handleKeyDown 0 0 onChannelCollapse key channelId index)
       = FocusRow (Some row) → False).
Proof.
  split_and!.
  - intros i Hi press. subst press. unfold handleKeyDown. simpl.
    rewrite !focusRow_clamped by lia.
    split_and!; do 3 f_equal; lia.
  - intros key index row. unfold handleKeyDown.
    repeat case_match; simpl; try discriminate;
      intros [= Hfocus]; by apply focusRow_in_bounds in Hfocus as [? _].
  - intros key index row. unfold handleKeyDown.
    repeat case_match; simpl; try discriminate;
      intros [= Hfocus]; apply focusRow_in_bounds in Hfocus as [? _]; lia.
Qed.

Lemma keyboard_focus_witness :
  handleKeyDown 3 3 true "ArrowDown" "signal" 2 = (true, FocusRow (Some 2%nat)) ∧
  handleKeyDown 3 3 true "ArrowUp" "whatsapp" 0 = (true, FocusRow (Some 0%nat)).
Proof.
  split.
  - apply (proj1 (keyboard_focus_clamped 3 true "signal") 2%nat). lia.
  - apply (proj1 (keyboard_focus_clamped 3 true "whatsapp") 0%nat). lia.
Defined.

(** One branch of [handleKeyDown], the key known or excluded. *)
Ltac key_case :=
  simpl; split_and!;
  repeat match goal with
         | |- _ ↔ _ => split
         | |- _ → _ => intro
         | H : ∃ _, _ |- _ => destruct H
         | H : _ ∧ _ |- _ => destruct H
         | H : _ ∨ _ |- _ => destruct H
         | H : _ ∈ _ |- _ => apply list_elem_of_In in H; simpl in H
         end;
  subst; try discriminate; try congruence; try done;
  eauto 6; try (apply list_elem_of_In; simpl; tauto).

(** X11. Which keys do what. Only Enter and Space activate a row, and they
    activate the row the key was pressed on; only Escape collapses, and only
    when the collapse callback was supplied; only the arrow keys, Home and End
    move the focus, and they never change the navigation state; every other
    key is left to the browser untouched. *)
Theorem keyboard_effects (channelsLength : Z) (rows : nat) (onChannelCollapse : bool)
    (key channelId : string) (index : Z) :
  let press := handleKeyDown channelsLength rows onChannelCollapse key channelId index in
  ((∃ target, snd press = ClickChannel target) ↔ key = "Enter" ∨ key = " ") ∧
  (∀ target, snd press = ClickChannel target → target = channelId) ∧
  (snd press = CollapseChannel ↔ key = "Escape" ∧ onChannelCollapse = true) ∧
  ((∃ row, snd press = FocusRow row) ↔
     key = "ArrowDown" ∨ key = "ArrowUp" ∨ key = "Home" ∨ key = "End") ∧
  (fst press = true ↔ key ∈ handledKeys) ∧
  (fst press = false → snd press = NoEffect).
Proof.
  intros press. subst press. unfold handleKeyDown, handledKeys.
  destruct (String.eqb_spec key "Enter") as [->|HEnter]; [key_case|].
  destruct (String.eqb_spec key " ") as [->|HSpace]; [key_case|].
  destruct (String.eqb_spec key "Escape") as [->|HEscape];
    [destruct onChannelCollapse; key_case|].
  destruct (String.eqb_spec key "ArrowDown") as [->|HDown]; [key_case|].
  destruct (String.eqb_spec key "ArrowUp") as [->|HUp]; [key_case|].
  destruct (String.eqb_spec key "Home") as [->|HHome]; [key_case|].
  destruct (String.eqb_spec key "End") as [->|HEnd]; [key_case|].
  key_case.
Qed.

Example getStatusSummary_examples :
  getStatusSummary (Item.mk "t" "T" true true false 0 None false) = "Running" ∧
  getStatusSummary (Item.mk "t" "T" true true true 1 None false) = "Connected · 1 account" ∧
  getStatusSummary (Item.mk "t" "T" true true true 12 None true) = "Error · 12 accounts" ∧
  getStatusSummary (Item.mk "t" "T" false false false (-3) None false) = "Not configured".
Proof. by vm_compute. Qed.

End ListFacts.

(** ** The channels page: rows, selection and inline detail *)
Module PageFacts.
Import Channels Terms Inputs ChannelsList FactTerms.



Section WithCollaborators.
Context `{Collaborators}.







End WithCollaborators.
(** A key listed twice in [channelOrder] gives two rows, and expanding that
    channel expands both. *)
Example duplicate_key_expands_twice :
  (λ rows : list (Row Detail.DetailView),
     (λ row, (rowId row, rowSelected row)) <$> rows) <$>
    renderChannels (H := Sample.host) 1700000000000
      {| snapshot := Some (Snapshot.mk (Some ["slack"; "nostr"; "slack"]) None None None None);
         whatsappMessage := None;
         whatsappQrDataUrl := None;
         whatsappBusy := false;
         configForm := JNull;
         expandedChannelId := Some "slack";
         activeChannelTab := "status" |}
  = Ok [("nostr", false); ("slack", true); ("slack", true)].
Proof. by vm_compute. Qed.

(** An expanded channel that the snapshot no longer lists leaves every row
    collapsed. *)
Example stale_expanded_channel :
  (λ rows : list (Row Detail.DetailView),
     (λ row, (rowId row, rowSelected row, rowSummary row)) <$> rows) <$>
    renderChannels (H := Sample.host) 1700000000000
      {| snapshot := Some (Snapshot.mk (Some ["nostr"]) None None None None);
         whatsappMessage := None;
         whatsappQrDataUrl := None;
         whatsappBusy := false;
         configForm := JNull;
         expandedChannelId := Some "matrix";
         activeChannelTab := "status" |}
  = Ok [("nostr", false, "Not configured")].
Proof. by vm_compute. Qed.

End PageFacts.

(** ** Tab bar *)
Module TabFacts.
Import Channels Terms Inputs FactTerms.

Lemma visible_filter (tabs : list Tabs.ChannelTabDef) :
  filter (λ tab, default false (Tabs.hidden tab) = false) tabs =
  filter (λ tab, Tabs.hidden tab ≠ Some true) tabs.
Proof.
  induction tabs as [|tab tabs IH]; [done|].
  rewrite !filter_cons, IH.
  destruct (Tabs.hidden tab) as [[]|]; simpl; repeat case_decide; congruence.
Qed.

Lemma renderChannelTabs_buttons (tabs : list Tabs.ChannelTabDef) (activeTab : string) :
  Forall2 (buttonOf activeTab)
    (filter (λ tab, Tabs.hidden tab ≠ Some true) tabs)
    (Tabs.renderChannelTabs tabs activeTab).
Proof.
  unfold Tabs.renderChannelTabs. rewrite visible_filter.
  apply Forall2_fmap_r, Forall_Forall2_diag, Forall_forall.
  intros tab _. unfold buttonOf. simpl. by split_and!.
Qed.

(** X15. The tab bar has one button per tab that is not hidden, in the order
    given; a button never asks for a change to a hidden or a disabled tab:
    an enabled tab's button asks for that tab, a disabled tab's button is
    inert. *)
Theorem tab_bar_requests_visible_enabled_tabs (tabs : list Tabs.ChannelTabDef)
    (activeTab : string) :
  let bar := Tabs.renderChannelTabs tabs activeTab in
  Tabs.tabId <$> bar = Tabs.id <$> filter (λ tab, Tabs.hidden tab ≠ Some true) tabs ∧
  (∀ button target, button ∈ bar → Tabs.tabOnClick button = OnTabChange target →
     Tabs.tabId button = target ∧ Tabs.tabDisabled button = false ∧
     ∃ tab, tab ∈ tabs ∧ Tabs.id tab = target ∧
       Tabs.hidden tab ≠ Some true ∧ Tabs.disabled tab ≠ Some true) ∧
  (∀ button, button ∈ bar → Tabs.tabDisabled button = true →
     Tabs.tabOnClick button = NoAction).
Proof.
  intros bar. subst bar.
  pose proof (renderChannelTabs_buttons tabs activeTab) as HR.
  split_and!.
  - induction HR as [|tab button ts bs (Hid & _) _ IH]; [done|].
    rewrite !fmap_cons. by rewrite Hid, IH.
  - intros button target Hin Hclick.
    apply list_elem_of_lookup in Hin as [i Hi].
    destruct (Forall2_lookup_r _ _ _ _ _ HR Hi)
      as (tab & Htab & Hid & _ & _ & Hdis & Hon).
    apply list_elem_of_lookup_2, list_elem_of_filter in Htab as [Hvis Htab].
    rewrite Hclick in Hon. rewrite Hdis.
    destruct (bool_decide (Tabs.disabled tab = Some true)) eqn:Hd; [done|].
    injection Hon as ->. split_and!; [done|done|].
    exists tab. split_and!; try done. by apply bool_decide_eq_false in Hd.
  - intros button Hin Hdisabled.
    apply list_elem_of_lookup in Hin as [i Hi].
    destruct (Forall2_lookup_r _ _ _ _ _ HR Hi) as (tab & _ & _ & _ & _ & Hdis & Hon).
    rewrite Hdisabled in Hdis. by rewrite <- Hdis in Hon.
Qed.

Section WithCollaborators.
Context `{Collaborators}.

Lemma expanded_tab_bar (now : Z) (channelId : string) (props : ChannelsProps) :
  ∃ view, renderExpandedChannel now channelId props = Ok view ∧
    Detail.tabBar view =
      Tabs.renderChannelTabs
        (Tabs.createDefaultChannelTabs
           (Some (getChannelAccountCount channelId
                    (snapshot props ≫= Snapshot.channelAccounts) <? 2)) None)
        (activeChannelTab props).
Proof.
  destruct (DetailProps.renderExpandedChannel_ok now channelId props)
    as (view & Hview & _ & Hbody).
  exists view. split; [done|].
  unfold renderExpandedChannel, Detail.renderChannelDetail in Hview.
  rewrite Hbody in Hview. simpl in Hview. by injection Hview as <-.
Qed.

(** X16. In the detail card of an expanded channel every tab button is
    enabled and asks for its own tab, so the tabs that can be requested are
    exactly the ones shown; a button is marked active exactly when its tab is
    the active tab, hence no button is marked when the active tab is hidden. *)
Theorem expanded_tab_buttons (now : Z) (channelId : string) (props : ChannelsProps) :
  ∃ view, renderExpandedChannel now channelId props = Ok view ∧
    Tabs.tabOnClick <$> Detail.tabBar view = OnTabChange <$> tabIds view ∧
    (∀ button, button ∈ Detail.tabBar view →
       Tabs.tabDisabled button = false ∧
       (Tabs.tabSelected button = true ↔ Tabs.tabId button = activeChannelTab props)) ∧
    ((activeChannelTab props ∈ tabIds view → False) →
       ∀ button, button ∈ Detail.tabBar view → Tabs.tabSelected button = false).
Proof.
  destruct (expanded_tab_bar now channelId props) as (view & Hview & Hbar).
  exists view. split; [done|].
  assert (∀ button, button ∈ Detail.tabBar view →
            Tabs.tabOnClick button = OnTabChange (Tabs.tabId button) ∧
            Tabs.tabDisabled button = false ∧
            Tabs.tabSelected button =
              bool_decide (Tabs.tabId button = activeChannelTab props)) as Hbuttons.
  { intros button Hin. rewrite Hbar in Hin.
    apply list_elem_of_lookup in Hin as [i Hi].
    destruct (Forall2_lookup_r _ _ _ _ _ (renderChannelTabs_buttons _ _) Hi)
      as (tab & Htab & Hid & _ & Hsel & Hdis & Hon).
    apply list_elem_of_lookup_2, list_elem_of_filter in Htab as [_ Htab].
    assert (Tabs.disabled tab = None) as Hnone.
    { apply list_elem_of_In in Htab. simpl in Htab.
      destruct Htab as [<-|[<-|[<-|[<-|[]]]]]; reflexivity. }
    rewrite Hnone in Hdis, Hon. simpl in Hdis, Hon.
    rewrite Hid. by split_and!. }
  split_and!.
  - unfold tabIds. rewrite <- list_fmap_compose.
    apply list_fmap_ext. intros i button Hi. simpl.
    apply Hbuttons. by eapply list_elem_of_lookup_2.
  - intros button Hin. destruct (Hbuttons button Hin) as (_ & Hd & Hs).
    split; [done|]. rewrite Hs. apply bool_decide_eq_true.
  - intros Hhidden button Hin. destruct (Hbuttons button Hin) as (_ & _ & Hs).
    rewrite Hs. apply bool_decide_eq_false. intros Heq. apply Hhidden.
    rewrite <- Heq. unfold tabIds. apply list_elem_of_fmap. by exists button.
Qed.

End WithCollaborators.

Example tab_bar_hidden_and_disabled :
  (λ b, (Tabs.tabId b, Tabs.tabOnClick b, Tabs.tabSelected b)) <$>
    Tabs.renderChannelTabs sampleTabs "accounts"
  = [ ("status", OnTabChange "status", false); ("config", NoAction, false) ].
Proof. by vm_compute. Qed.

End TabFacts.

(** ** Status, accounts and actions content *)
Module ContentFacts.
Import Channels Terms Inputs FactTerms.


Ltac shape_rows := apply list_elem_of_In; simpl; tauto.

Section WithCollaborators.
Context `{Collaborators}.

Lemma renderWhatsAppStatus_view (status : jsval) :
  ∃ view, renderWhatsAppStatus status = Ok view ∧ kindStatusView status view.
Proof.
  unfold renderWhatsAppStatus.
  destruct (DetailProps.agoOrNA_ok status "lastConnectedAt") as [c ->].
  destruct (DetailProps.agoOrNA_ok status "lastMessageAt") as [m ->]. simpl.
  destruct (DetailProps.errorCallout_ok status) as [err Herr].
  destruct (nullish (optField status "authAgeMs")) eqn:Hn; simpl.
  - rewrite Herr. simpl. eexists. split; [reflexivity|].
    eexists _, err, []. split_and!; first [done | simpl; lia | shape_rows].
  - rewrite DetailProps.nonnullish_getField_ok by done. simpl.
    rewrite Herr. simpl. eexists. split; [reflexivity|].
    eexists _, err, []. split_and!; first [done | simpl; lia | shape_rows].
Qed.

Lemma renderTelegramStatus_view (status : jsval) :
  ∃ view, renderTelegramStatus status = Ok view ∧ kindStatusView status view.
Proof.
  unfold renderTelegramStatus.
  destruct (DetailProps.agoOrNA_ok status "lastStartAt") as [c ->].
  destruct (DetailProps.agoOrNA_ok status "lastProbeAt") as [m ->]. simpl.
  destruct (DetailProps.errorCallout_ok status) as [err Herr]. rewrite Herr.
  destruct (DetailProps.probeCallout_ok status) as [probe ->]. simpl.
  eexists. split; [reflexivity|]. eexists _, err, [probe]. split_and!; first [done | simpl; lia | shape_rows].
Qed.

Lemma renderDiscordStatus_view (status : jsval) :
  ∃ view, renderDiscordStatus status = Ok view ∧ kindStatusView status view.
Proof.
  unfold renderDiscordStatus.
  destruct (DetailProps.agoOrNA_ok status "lastStartAt") as [c ->].
  destruct (DetailProps.agoOrNA_ok status "lastProbeAt") as [m ->]. simpl.
  destruct (DetailProps.errorCallout_ok status) as [err Herr]. rewrite Herr.
  destruct (DetailProps.probeCallout_ok status) as [probe ->]. simpl.
  eexists. split; [reflexivity|]. eexists _, err, [probe]. split_and!; first [done | simpl; lia | shape_rows].
Qed.

Lemma renderTwoRowStatus_view (status : jsval) :
  ∃ view, renderTwoRowStatus status = Ok view ∧ kindStatusView status view.
Proof.
  unfold renderTwoRowStatus.
  destruct (DetailProps.errorCallout_ok status) as [err Herr]. rewrite Herr. simpl.
  eexists. split; [reflexivity|]. eexists _, err, []. split_and!; first [done | simpl; lia | shape_rows].
Qed.

(** The generic view: its callout shows [lastError] only when it is a
    non-empty string. *)
Lemma renderGenericStatus_view (channelId : string) (props : ChannelsProps)
    (data : ChannelsChannelData) :
  ∃ rows,
    renderGenericStatus channelId props data =
      Ok (Fragment
            [ StatusList rows;
              match statusField props channelId "lastError" with
              | JStr s => if String.eqb s "" then Nothing else Callout "danger" [JStr s]
              | _ => Nothing
              end ]) ∧
    head (fst <$> rows) = Some "Configured" ∧
    "Running" ∈ fst <$> rows.
Proof.
  unfold renderGenericStatus.
  rewrite !SummarizerProps.read_boolean_or_undefined,
    SummarizerProps.read_string_or_undefined. simpl.
  eexists. split.
  - do 3 f_equal. unfold statusField.
    destruct (optField _ "lastError") as [| | | |s| |]; try done.
    simpl. by destruct (String.eqb s "").
  - split; [reflexivity|shape_rows].
Qed.


(** The status content of a channel of one of the eight known kinds. *)
Lemma renderChannelStatus_known (channelId : string) (props : ChannelsProps) :
  channelId ∈ DEFAULT_ORDER →
  ∃ view, renderChannelStatus channelId props (channelData props) = Ok view ∧
    kindStatusView (kindStatus props channelId) view.
Proof.
  intros Hin. apply list_elem_of_In in Hin. simpl in Hin.
  unfold renderChannelStatus, kindStatus, renderSlackStatus, renderSignalStatus,
    renderIMessageStatus, renderGoogleChatStatus, renderNostrStatus.
  destruct Hin as [<-|[<-|[<-|[<-|[<-|[<-|[<-|[<-|[]]]]]]]]]; simpl;
    auto using renderWhatsAppStatus_view, renderTelegramStatus_view,
      renderDiscordStatus_view, renderTwoRowStatus_view.
Qed.

Lemma renderChannelStatus_unknown (channelId : string) (props : ChannelsProps)
    (data : ChannelsChannelData) :
  (channelId ∈ DEFAULT_ORDER → False) →
  renderChannelStatus channelId props data = renderGenericStatus channelId props data.
Proof.
  intros Hout. unfold renderChannelStatus.
  repeat match goal with
         | |- context [String.eqb channelId ?k] =>
           destruct (String.eqb_spec channelId k) as [->|?];
           [exfalso; apply Hout, list_elem_of_In; simpl; tauto|]
         end.
  reflexivity.
Qed.


(** X17. The status content of an expanded channel is rendered for every
    snapshot and every channel id, known or not, whatever the payload holds:
    a status list that starts with the Configured row and has a Running row,
    followed by one or two callout slots. *)
Theorem status_content_total (channelId : string) (props : ChannelsProps) :
  ∃ rows callouts,
    renderChannelStatus channelId props (channelData props)
      = Ok (Fragment (StatusList rows :: callouts)) ∧
    head (fst <$> rows) = Some "Configured" ∧
    "Running" ∈ fst <$> rows ∧
    (1 ≤ length callouts ≤ 2)%nat.
Proof.
  destruct (decide (channelId ∈ DEFAULT_ORDER)) as [Hknown|Hunknown].
  - destruct (renderChannelStatus_known channelId props Hknown)
      as (view & Hview & rows & err & rest & -> & Hhead & Hrun & _ & Hrest).
    exists rows, (err :: rest). split_and!; try done; simpl; lia.
  - rewrite renderChannelStatus_unknown by done.
    destruct (renderGenericStatus_view channelId props (channelData props))
      as (rows & Hview & Hhead & Hrun).
    eexists rows, [_]. split_and!; [exact Hview|done|done|simpl; lia|simpl; lia].
Qed.


(** X20. In the WhatsApp actions the QR image and the label of the first
    button go together: with a QR payload present (even an empty one) the
    image shows that payload and the button reads "Refresh QR"; without one
    there is no image and the button reads "Show QR Code". The message
    callout is shown exactly for a non-empty message. *)
Theorem whatsapp_qr_and_button (props : ChannelsProps) (status : jsval) :
  ∃ first others qr message,
    renderWhatsAppActions props status =
      Fragment [BtnRow (first :: others); qr; message] ∧
    (∀ url, whatsappQrDataUrl props = Some url →
       qr = WhatsAppQr url ∧ btnText first = "Refresh QR") ∧
    (whatsappQrDataUrl props = None →
       qr = Nothing ∧ btnText first = "Show QR Code") ∧
    (∀ text, whatsappMessage props = Some text → text ≠ "" →
       message = Callout "info" [JStr text]) ∧
    (whatsappMessage props = None ∨ whatsappMessage props = Some "" →
       message = Nothing).
Proof.
  unfold renderWhatsAppActions. do 4 eexists. split; [reflexivity|].
  simpl. split_and!.
  - intros url ->. by rewrite bool_decide_eq_true_2.
  - intros ->. by rewrite bool_decide_eq_false_2 by (intros Hc; by apply Hc).
  - intros text -> Hne. simpl.
    by rewrite (proj2 (String.eqb_neq _ _) Hne).
  - by intros [->| ->].
Qed.

End WithCollaborators.
End ContentFacts.

(** ** Keys that name inherited members *)
Module ProtoProps.
Import Channels Terms Inputs FactTerms.

Lemma keyed_plain {V} (record : option (gmap string V)) (key : string) :
  Proto.objectPrototypeMember key = None →
  Proto.keyed record key =
    match recordLookup record key with
    | Some v => Proto.Own v
    | None => Proto.Missing
    end.
Proof.
  intros Hplain. unfold Proto.keyed, recordLookup.
  destruct record as [fields|]; [|done].
  destruct (fields !! key); [done|]. by rewrite Hplain.
Qed.

Lemma keyed_own {V} (record : option (gmap string V)) (key : string) (v : V) :
  recordLookup record key = Some v → Proto.keyed record key = Proto.Own v.
Proof.
  unfold Proto.keyed, recordLookup.
  destruct record as [fields|]; [|done]. by intros ->.
Qed.

(** For a key that names no inherited member the label is the string that
    [Channels.resolveChannelLabel] computes. *)
Lemma resolveChannelLabel_plain (snapshot : option Snapshot.t) (key : string) :
  Proto.objectPrototypeMember key = None →
  Proto.resolveChannelLabel snapshot key = Proto.LabelText (resolveChannelLabel snapshot key).
Proof.
  intros Hplain. unfold Proto.resolveChannelLabel, Proto.metaFor, resolveChannelLabel.
  rewrite !keyed_plain by done. simpl.
  destruct (resolveChannelMetaMap snapshot !! key); [done|].
  by destruct (recordLookup (snapshot ≫= Snapshot.channelLabels) key).
Qed.

(** X7. The label of a channel is the label of the last [channelMeta] entry
    with that id when there is one; otherwise it is what [channelLabels[key]]
    finds: the own entry when there is one, and, when [channelLabels] is an
    object without that key, the inherited member of [Object.prototype] the
    key names, which is not a string; otherwise it is the key itself. *)
Theorem resolveChannelLabel_lookup_order (snapshot : option Snapshot.t) (key : string) :
  Proto.resolveChannelLabel snapshot key =
    match last (filter (λ e, Meta.id e = key)
                  (default [] (snapshot ≫= Snapshot.channelMeta))) with
    | Some e => Proto.LabelText (Meta.label e)
    | None =>
      match snapshot ≫= Snapshot.channelLabels with
      | None => Proto.LabelText key
      | Some labels =>
        match labels !! key, Proto.objectPrototypeMember key with
        | Some text, _ => Proto.LabelText text
        | None, Some m => Proto.LabelMember m
        | None, None => Proto.LabelText key
        end
      end
    end.
Proof.
  unfold Proto.resolveChannelLabel, Proto.metaFor. unfold Proto.keyed at 1.
  rewrite LabelFacts.resolveChannelMetaMap_lookup.
  destruct (last _) as [e|]; [done|].
  destruct (Proto.objectPrototypeMember key) as [m|] eqn:Hm; simpl;
    unfold Proto.keyed; destruct (snapshot ≫= Snapshot.channelLabels) as [labels|];
    try done; destruct (labels !! key); by rewrite ?Hm.
Qed.

Example resolveChannelLabel_inherited :
  Proto.resolveChannelLabel
    (Some (Snapshot.mk None (Some ∅) None None None)) "constructor"
    = Proto.LabelMember (Proto.MemberFunction 1) ∧
  Proto.resolveChannelLabel (Some (Snapshot.mk None None None None None)) "constructor"
    = Proto.LabelText "constructor" ∧
  Proto.resolveChannelLabel
    (Some (Snapshot.mk None (Some {[ "constructor" := "Builder" ]}) None None None))
    "constructor"
    = Proto.LabelText "Builder".
Proof. by vm_compute. Qed.

Section WithCollaborators.
Context `{Collaborators}.

(** For a key that names no inherited member, the summarizer is the one of
    [Channels]. *)
Lemma buildChannelListItem_plain (props : ChannelsProps) (key : string) :
  Proto.objectPrototypeMember key = None →
  Proto.buildChannelListItem props key = Proto.ofItem <$> buildChannelListItem props key.
Proof.
  intros Hplain.
  rewrite SummarizerProps.buildChannelListItem_ok.
  unfold Proto.buildChannelListItem, Proto.lastActivityFor.
  rewrite resolveChannelLabel_plain by done.
  rewrite !keyed_plain by done.
  assert (Proto.statusOf
            match recordLookup (snapshot props ≫= Snapshot.channels) key with
            | Some v => Proto.Own v
            | None => Proto.Missing
            end = recordGet (snapshot props ≫= Snapshot.channels) key) as ->.
  { unfold recordGet, recordLookup.
    destruct (snapshot props ≫= Snapshot.channels) as [fields|]; [|done].
    by destruct (fields !! key). }
  rewrite !SummarizerProps.read_boolean_or_false, SummarizerProps.read_hasError.
  unfold accountsOf, statusField.
  by destruct (recordLookup (snapshot props ≫= Snapshot.channelAccounts) key).
Qed.

(** A key that is not an own property of [channelAccounts] and names an
    inherited member makes the summarizer throw. *)
Lemma buildChannelListItem_inherited (props : ChannelsProps) (key : string)
    (accounts : gmap string (list Account.t)) (m : Proto.Member) :
  snapshot props ≫= Snapshot.channelAccounts = Some accounts →
  accounts !! key = None →
  Proto.objectPrototypeMember key = Some m →
  Proto.buildChannelListItem props key = Throw "TypeError: accounts is not iterable".
Proof.
  intros Haccounts Hkey Hm.
  unfold Proto.buildChannelListItem, Proto.lastActivityFor.
  rewrite !SummarizerProps.read_boolean_or_false, SummarizerProps.read_hasError.
  rewrite Haccounts. simpl. by rewrite Hkey, Hm.
Qed.

End WithCollaborators.

(** C9. The summarizer does not complete on every snapshot: for the snapshot
    whose canonical order is the single key "constructor" and whose
    [channelAccounts] is the empty record, the key is absent from
    [channelAccounts], the lookup finds the inherited [Object] function, and
    building the list items throws. *)
Theorem buildChannelListItems_inherited_key_throws :
  resolveChannelOrder (snapshot inheritedKeyProps) = ["constructor"] ∧
  recordLookup (snapshot inheritedKeyProps ≫= Snapshot.channelAccounts) "constructor" = None ∧
  Proto.keyed (snapshot inheritedKeyProps ≫= Snapshot.channelAccounts) "constructor"
    = Proto.Inherited (Proto.MemberFunction 1) ∧
  Proto.buildChannelListItems (H := Sample.host) inheritedKeyProps
    (resolveChannelOrder (snapshot inheritedKeyProps))
    = Throw "TypeError: accounts is not iterable".
Proof. by vm_compute. Qed.

End ProtoProps.
